(** * Schema-suggestion core of BuildMLE/buildml

    Shallow embedding of the schema catalog, the matcher [generateSchemas],
    the validator [validateSchema] and the formatter [formatSchema]
    (src/unnamed/part_000, lines 1-292).

    Modelling choices:
    - JS strings are modelled as Stdlib [string]: sequences of code units
      below 256 (the Latin-1 part of UTF-16).  On that range
      [String.prototype.toLowerCase] and [String.prototype.trim] are written
      out exactly.
    - JS numbers are modelled as finite decimals [mant * 10^exp10], kept
      normalised (no trailing zero in the mantissa); the core only uses
      small integers.
    - JS objects are association lists in property order (insertion order;
      the core never uses array-index-like keys).
    - The builtins [JSON.parse] and [JSON.stringify(_, null, 2)] are written
      out from their ECMAScript definitions on that value model. *)

From Stdlib Require Import ZArith List String Ascii Bool Lia.
Import ListNotations.
Open Scope string_scope.
Open Scope Z_scope.

(** ** Characters and JS string operations *)

Definition code (c : ascii) : Z := Z.of_N (N_of_ascii c).
Definition chr (n : Z) : ascii := ascii_of_N (Z.to_N n).

Definition nl : string := String (chr 10) EmptyString.
Definition dq : string := String (chr 34) EmptyString.

(** [String.prototype.toLowerCase] on code units below 256: A-Z and
    U+00C0..U+00DE except U+00D7 are shifted by 32. *)
Definition js_lower_char (c : ascii) : ascii :=
  let n := code c in
  if ((65 <=? n) && (n <=? 90)) || ((192 <=? n) && (n <=? 222) && negb (n =? 215))
  then chr (n + 32) else c.

Fixpoint toLowerCase (s : string) : string :=
  match s with
  | EmptyString => EmptyString
  | String c r => String (js_lower_char c) (toLowerCase r)
  end.

(** WhiteSpace and LineTerminator code points below 256 (TAB, LF, VT, FF,
    CR, SPACE, NBSP): what [String.prototype.trim] removes. *)
Definition js_ws (c : ascii) : bool :=
  let n := code c in
  ((9 <=? n) && (n <=? 13)) || (n =? 32) || (n =? 160).

(** [!s || s.trim().length === 0]: the string is empty or only whitespace. *)
Fixpoint is_blank (s : string) : bool :=
  match s with
  | EmptyString => true
  | String c r => js_ws c && is_blank r
  end.

Fixpoint starts_with (s k : string) : bool :=
  match k, s with
  | EmptyString, _ => true
  | String c k', String c' s' => Ascii.eqb c c' && starts_with s' k'
  | String _ _, EmptyString => false
  end.

(** [s.includes(k)] *)
Fixpoint includes (s k : string) : bool :=
  starts_with s k ||
  match s with
  | EmptyString => false
  | String _ r => includes r k
  end.

(** ** JSON values *)

Record jsnum := mkNum { mant : Z; exp10 : Z }.

#[warnings="-register-all"]
Inductive json :=
| JNull
| JBool (b : bool)
| JNum (n : jsnum)
| JStr (s : string)
| JArr (l : list json)
| JObj (l : list (string * json)).

(** Normal form of the decimal [m * 10^e]: trailing zeros moved into the
    exponent, zero written [0 * 10^0]. *)
Fixpoint norm_num (fuel : nat) (m e : Z) : jsnum :=
  match fuel with
  | O => mkNum m e
  | S f =>
      if m =? 0 then mkNum 0 0
      else if Z.rem m 10 =? 0 then norm_num f (Z.quot m 10) (e + 1)
      else mkNum m e
  end.

Definition mk_num (m e : Z) : jsnum := norm_num (Z.to_nat (Z.log2_up (Z.abs m) + 1)) m e.

Definition num_of_Z (z : Z) : jsnum := mk_num z 0.

(** Property assignment [o[k] = v]: an existing key keeps its place, a new
    key goes last. *)
Fixpoint obj_set (o : list (string * json)) (k : string) (v : json) : list (string * json) :=
  match o with
  | [] => [(k, v)]
  | (k', v') :: r => if String.eqb k k' then (k, v) :: r else (k', v') :: obj_set r k v
  end.

Fixpoint obj_get (o : list (string * json)) (k : string) : option json :=
  match o with
  | [] => None
  | (k', v) :: r => if String.eqb k k' then Some v else obj_get r k
  end.

(** ** [createSchema] (lines 12-22) *)

Record FieldSpec := mkField {
  ftype : string;
  fdescription : string;
  fitems : option json;
  fminimum : option Z;
  fmaximum : option Z
}.

Definition field_json (value : FieldSpec) : list (string * json) :=
  let acc := [("type", JStr (ftype value)); ("description", JStr (fdescription value))] in
  let acc := match fitems value with Some i => obj_set acc "items" i | None => acc end in
  let acc := match fminimum value with
             | Some m => obj_set acc "minimum" (JNum (num_of_Z m)) | None => acc end in
  match fmaximum value with
  | Some m => obj_set acc "maximum" (JNum (num_of_Z m)) | None => acc
  end.

Definition createSchema (properties : list (string * FieldSpec)) (required : list string) : json :=
  JObj [("type", JStr "object");
        ("properties",
          JObj (fold_left (fun acc kv => obj_set acc (fst kv) (JObj (field_json (snd kv))))
                          properties []));
        ("required", JArr (map JStr required))].

Record SchemaSet := mkSchemaSet { input : json; output : json }.

Record SchemaPattern := mkPattern {
  keywords : list string;
  priority : Z;
  generator : unit -> SchemaSet
}.

Definition itemsOf (t : string) : option json := Some (JObj [("type", JStr t)]).

(** ** The catalog [schemaPatterns] (lines 24-211), in declaration order *)

Definition fraudPattern : SchemaPattern := {|
  keywords := ["fraud"; "fraudulent"; "scam"; "spam"; "phishing"; "fake"];
  priority := 10;
  generator := fun _ => {|
    input := createSchema [
      ("text_content", mkField "string" "The text content to analyze" None None None);
      ("sender_email", mkField "string" "Email address of the sender" None None None);
      ("subject", mkField "string" "Email or message subject" None None None);
      ("metadata", mkField "object" "Additional contextual information" None None None)]
      ["text_content"];
    output := createSchema [
      ("is_fraudulent", mkField "boolean" "Whether the content is fraudulent" None None None);
      ("confidence", mkField "number" "Confidence score between 0 and 1" None (Some 0) (Some 1));
      ("risk_factors", mkField "array" "List of identified risk factors" (itemsOf "string") None None);
      ("severity", mkField "string" "Risk level: low, medium, high" None None None)]
      ["is_fraudulent"; "confidence"] |} |}.

Definition churnPattern : SchemaPattern := {|
  keywords := ["churn"; "retention"; "attrition"; "cancel"; "unsubscribe"];
  priority := 10;
  generator := fun _ => {|
    input := createSchema [
      ("customer_id", mkField "string" "Unique customer identifier" None None None);
      ("days_active", mkField "integer" "Number of days as customer" None (Some 0) None);
      ("engagement_score", mkField "number" "Engagement metric" None (Some 0) (Some 100));
      ("last_activity_days", mkField "integer" "Days since last activity" None (Some 0) None);
      ("support_tickets", mkField "integer" "Number of support tickets filed" None (Some 0) None)]
      ["customer_id"; "days_active"];
    output := createSchema [
      ("will_churn", mkField "boolean" "Predicted churn likelihood" None None None);
      ("churn_probability", mkField "number" "Probability between 0 and 1" None (Some 0) (Some 1));
      ("churn_date_estimate", mkField "string" "Estimated date of churn (ISO 8601)" None None None);
      ("retention_factors", mkField "array" "Factors affecting retention" (itemsOf "string") None None)]
      ["will_churn"; "churn_probability"] |} |}.

Definition sentimentPattern : SchemaPattern := {|
  keywords := ["sentiment"; "emotion"; "feeling"; "opinion"; "review"];
  priority := 9;
  generator := fun _ => {|
    input := createSchema [
      ("text", mkField "string" "Text to analyze for sentiment" None None None);
      ("language", mkField "string" "Language code (e.g., en, es)" None None None);
      ("context", mkField "string" "Additional context about the text" None None None)]
      ["text"];
    output := createSchema [
      ("sentiment", mkField "string" "Sentiment classification: positive, negative, or neutral" None None None);
      ("score", mkField "number" "Sentiment score between -1 and 1" None (Some (-1)) (Some 1));
      ("confidence", mkField "number" "Confidence in prediction" None (Some 0) (Some 1));
      ("emotions", mkField "object" "Breakdown of detected emotions" None None None)]
      ["sentiment"; "score"] |} |}.

Definition classifyPattern : SchemaPattern := {|
  keywords := ["classify"; "classification"; "categorize"; "category"; "label"; "tag"];
  priority := 8;
  generator := fun _ => {|
    input := createSchema [
      ("text", mkField "string" "Text to classify" None None None);
      ("features", mkField "object" "Additional features for classification" None None None);
      ("metadata", mkField "object" "Contextual metadata" None None None)]
      ["text"];
    output := createSchema [
      ("category", mkField "string" "Predicted category" None None None);
      ("confidence", mkField "number" "Confidence score" None (Some 0) (Some 1));
      ("all_categories", mkField "array" "All possible categories with scores" (itemsOf "object") None None);
      ("reasoning", mkField "string" "Explanation of classification" None None None)]
      ["category"; "confidence"] |} |}.

Definition pricePattern : SchemaPattern := {|
  keywords := ["price"; "pricing"; "cost"; "estimate"; "valuation"; "worth"];
  priority := 9;
  generator := fun _ => {|
    input := createSchema [
      ("features", mkField "object" "Relevant features (size, location, etc.)" None None None);
      ("category", mkField "string" "Item category" None None None);
      ("condition", mkField "string" "Item condition" None None None);
      ("market_data", mkField "object" "Current market conditions" None None None)]
      ["features"; "category"];
    output := createSchema [
      ("predicted_price", mkField "number" "Estimated price" None (Some 0) None);
      ("price_range_min", mkField "number" "Minimum price estimate" None (Some 0) None);
      ("price_range_max", mkField "number" "Maximum price estimate" None (Some 0) None);
      ("confidence_interval", mkField "number" "Confidence level" None (Some 0) (Some 1))]
      ["predicted_price"] |} |}.

Definition recommendPattern : SchemaPattern := {|
  keywords := ["recommend"; "recommendation"; "suggest"; "personalize"];
  priority := 8;
  generator := fun _ => {|
    input := createSchema [
      ("user_id", mkField "string" "User identifier" None None None);
      ("user_preferences", mkField "object" "User preferences and history" None None None);
      ("context", mkField "object" "Current context (time, location, etc.)" None None None);
      ("num_recommendations", mkField "integer" "Number of recommendations" None (Some 1) None)]
      ["user_id"];
    output := createSchema [
      ("recommendations", mkField "array" "List of recommended items" (itemsOf "object") None None);
      ("scores", mkField "array" "Relevance scores for each item" (itemsOf "number") None None);
      ("reasoning", mkField "object" "Explanation for recommendations" None None None);
      ("diversity_score", mkField "number" "Recommendation diversity" None (Some 0) (Some 1))]
      ["recommendations"] |} |}.

Definition anomalyPattern : SchemaPattern := {|
  keywords := ["anomaly"; "outlier"; "abnormal"; "unusual"; "detect"];
  priority := 8;
  generator := fun _ => {|
    input := createSchema [
      ("metrics", mkField "object" "Metrics to analyze" None None None);
      ("timestamp", mkField "string" "ISO 8601 timestamp" None None None);
      ("context", mkField "object" "Contextual information" None None None);
      ("baseline", mkField "object" "Normal behavior baseline" None None None)]
      ["metrics"; "timestamp"];
    output := createSchema [
      ("is_anomaly", mkField "boolean" "Whether anomaly detected" None None None);
      ("anomaly_score", mkField "number" "Anomaly severity" None (Some 0) (Some 1));
      ("anomaly_type", mkField "string" "Type of anomaly detected" None None None);
      ("affected_metrics", mkField "array" "Metrics showing anomalies" (itemsOf "string") None None)]
      ["is_anomaly"; "anomaly_score"] |} |}.

Definition imagePattern : SchemaPattern := {|
  keywords := ["image"; "photo"; "picture"; "visual"; "recognize"];
  priority := 7;
  generator := fun _ => {|
    input := createSchema [
      ("image_url", mkField "string" "URL to the image" None None None);
      ("image_base64", mkField "string" "Base64 encoded image" None None None);
      ("max_labels", mkField "integer" "Maximum number of labels to return" None (Some 1) None)]
      ["image_url"];
    output := createSchema [
      ("labels", mkField "array" "Detected labels/objects" (itemsOf "string") None None);
      ("confidence_scores", mkField "array" "Confidence for each label" (itemsOf "number") None None);
      ("bounding_boxes", mkField "array" "Coordinates of detected objects" (itemsOf "object") None None);
      ("metadata", mkField "object" "Additional image information" None None None)]
      ["labels"] |} |}.

Definition summarizePattern : SchemaPattern := {|
  keywords := ["summarize"; "summary"; "extract"; "abstract"; "tldr"];
  priority := 7;
  generator := fun _ => {|
    input := createSchema [
      ("text", mkField "string" "Text to summarize" None None None);
      ("max_length", mkField "integer" "Maximum summary length in characters" None (Some 1) None);
      ("style", mkField "string" "Summary style (brief, detailed)" None None None);
      ("key_points", mkField "boolean" "Whether to extract key points" None None None)]
      ["text"];
    output := createSchema [
      ("summary", mkField "string" "Generated summary" None None None);
      ("key_points", mkField "array" "Main points extracted" (itemsOf "string") None None);
      ("length_ratio", mkField "number" "Compression ratio" None (Some 0) (Some 1));
      ("important_entities", mkField "array" "Key entities mentioned" (itemsOf "string") None None)]
      ["summary"] |} |}.

Definition predictPattern : SchemaPattern := {|
  keywords := ["predict"; "forecast"; "estimate"];
  priority := 5;
  generator := fun _ => {|
    input := createSchema [
      ("features", mkField "object" "Input features for prediction" None None None);
      ("timestamp", mkField "string" "Reference timestamp (ISO 8601)" None None None);
      ("historical_data", mkField "array" "Historical data points" (itemsOf "object") None None)]
      ["features"];
    output := createSchema [
      ("prediction", mkField "number" "Predicted value" None None None);
      ("confidence_interval", mkField "object" "Upper and lower bounds" None None None);
      ("trend", mkField "string" "Predicted trend direction" None None None);
      ("factors", mkField "array" "Contributing factors" (itemsOf "string") None None)]
      ["prediction"] |} |}.

Definition schemaPatterns : list SchemaPattern :=
  [fraudPattern; churnPattern; sentimentPattern; classifyPattern; pricePattern;
   recommendPattern; anomalyPattern; imagePattern; summarizePattern; predictPattern].

(** ** [getDefaultSchema] (lines 244-257) *)

Definition getDefaultSchema (_ : unit) : SchemaSet := {|
  input := createSchema [
    ("data", mkField "object" "Your input data" None None None);
    ("features", mkField "object" "Relevant features" None None None);
    ("metadata", mkField "object" "Additional metadata" None None None)]
    ["data"];
  output := createSchema [
    ("prediction", mkField "string" "The model prediction" None None None);
    ("confidence", mkField "number" "Confidence score" None (Some 0) (Some 1));
    ("metadata", mkField "object" "Additional information" None None None)]
    ["prediction"] |}.

(** ** [generateSchemas] (lines 213-242) *)

(** [pattern.keywords.filter(k => lowerDescription.includes(k)).length] *)
Definition matchCount (p : SchemaPattern) (lowerDescription : string) : nat :=
  List.length (filter (fun keyword => includes lowerDescription keyword) (keywords p)).

Definition effectivePriority (p : SchemaPattern) (lowerDescription : string) : Z :=
  priority p * Z.of_nat (matchCount p lowerDescription).

(** Loop state: [(bestMatch, highestPriority)]. *)
Definition scan_step (lowerDescription : string) (st : option SchemaPattern * Z)
    (pattern : SchemaPattern) : option SchemaPattern * Z :=
  let matchCount := matchCount pattern lowerDescription in
  if (0 <? matchCount)%nat then
    let effective := priority pattern * Z.of_nat matchCount in
    if snd st <? effective then (Some pattern, effective) else st
  else st.

Definition scan (lowerDescription : string) : option SchemaPattern * Z :=
  fold_left (scan_step lowerDescription) schemaPatterns (None, -1).

Definition bestMatch (problemDescription : string) : option SchemaPattern :=
  fst (scan (toLowerCase problemDescription)).

Definition generateSchemas (problemDescription : string) : SchemaSet :=
  if is_blank problemDescription then getDefaultSchema tt
  else
    match bestMatch problemDescription with
    | Some p => generator p tt
    | None => getDefaultSchema tt
    end.

(** ** Exceptions: JS [throw] and [try]/[catch] *)

Inductive exn :=
| SyntaxError (message : string)   (* an [Error] instance *)
| ThrownValue (v : json).          (* any other thrown value *)

Inductive Exc (A : Type) :=
| Ok (a : A)
| Throw (e : exn).
Arguments Ok {A} a.
Arguments Throw {A} e.

Definition bind {A B : Type} (m : Exc A) (k : A -> Exc B) : Exc B :=
  match m with
  | Ok a => k a
  | Throw e => Throw e
  end.

Notation "x <- m ;; k" := (bind m (fun x => k))
  (at level 61, m at next level, right associativity).

Definition try_catch {A : Type} (body : Exc A) (handler : exn -> Exc A) : Exc A :=
  match body with
  | Ok a => Ok a
  | Throw e => handler e
  end.

(** ** [JSON.stringify(value, null, 2)] *)

Definition digit_char (d : Z) : ascii := chr (48 + d).

Fixpoint pos_digits (fuel : nat) (z : Z) (acc : string) : string :=
  match fuel with
  | O => acc
  | S f =>
      if z <? 10 then String (digit_char z) acc
      else pos_digits f (z / 10) (String (digit_char (z mod 10)) acc)
  end.

(** Decimal digits of a positive integer. *)
Definition digits_of (z : Z) : string := pos_digits (Z.to_nat (Z.log2_up z + 1)) z EmptyString.

Fixpoint zeros (n : nat) : string :=
  match n with O => EmptyString | S k => String "0" (zeros k) end.

(** [Number::toString] on a normalised decimal (ECMA-262, 6.1.6.1.20):
    digits [k], point position [n]. *)
Definition num_to_string (x : jsnum) : string :=
  let m := mant x in
  if m =? 0 then "0"
  else
    let sgn := if m <? 0 then "-" else "" in
    let ds := digits_of (Z.abs m) in
    let k := Z.of_nat (String.length ds) in
    let n := exp10 x + k in
    let body :=
      if (k <=? n) && (n <=? 21) then ds ++ zeros (Z.to_nat (n - k))
      else if (0 <? n) && (n <=? 21) then
        substring 0 (Z.to_nat n) ds ++ "." ++ substring (Z.to_nat n) (Z.to_nat (k - n)) ds
      else if (-6 <? n) && (n <=? 0) then "0." ++ zeros (Z.to_nat (- n)) ++ ds
      else
        let e := n - 1 in
        let es := (if e <? 0 then "-" else "+") ++ digits_of (Z.abs e) in
        if k =? 1 then ds ++ "e" ++ es
        else substring 0 1 ds ++ "." ++ substring 1 (Z.to_nat (k - 1)) ds ++ "e" ++ es
    in sgn ++ body.

Definition hex_char (d : Z) : ascii := if d <? 10 then chr (48 + d) else chr (87 + d).

(** [QuoteJSONString] (ECMA-262, 25.5.2.3). *)
Fixpoint quote_chars (s : string) : string :=
  match s with
  | EmptyString => dq
  | String c r =>
      let n := code c in
      let esc :=
        if n =? 8 then "\b" else if n =? 9 then "\t" else if n =? 10 then "\n"
        else if n =? 12 then "\f" else if n =? 13 then "\r"
        else if n =? 34 then String "\" dq
        else if n =? 92 then "\\"
        else if n <? 32 then "\u00" ++ String (hex_char (n / 16)) (String (hex_char (n mod 16)) EmptyString)
        else String c EmptyString in
      esc ++ quote_chars r
  end.

Definition QuoteJSONString (s : string) : string := dq ++ quote_chars s.

Definition gap : string := "  ".

(** [SerializeJSONProperty] with [gap = "  "]; [indent] is the current
    indentation, objects and arrays go through [SerializeJSONObject] and
    [SerializeJSONArray]. *)
Fixpoint serialize (indent : string) (v : json) {struct v} : string :=
  let stepIn := indent ++ gap in
  let sep := "," ++ nl ++ stepIn in
  match v with
  | JNull => "null"
  | JBool true => "true"
  | JBool false => "false"
  | JNum n => num_to_string n
  | JStr s => QuoteJSONString s
  | JArr [] => "[]"
  | JArr (x :: r) =>
      "[" ++ nl ++ stepIn ++ serialize stepIn x ++
      (fix elems (l : list json) : string :=
         match l with
         | [] => EmptyString
         | y :: l' => sep ++ serialize stepIn y ++ elems l'
         end) r ++ nl ++ indent ++ "]"
  | JObj [] => "{}"
  | JObj ((k, x) :: r) =>
      "{" ++ nl ++ stepIn ++ QuoteJSONString k ++ ": " ++ serialize stepIn x ++
      (fix members (l : list (string * json)) : string :=
         match l with
         | [] => EmptyString
         | (k', y) :: l' => sep ++ QuoteJSONString k' ++ ": " ++ serialize stepIn y ++ members l'
         end) r ++ nl ++ indent ++ "}"
  end.

(** [formatSchema] (lines 283-285) *)
Definition formatSchema (schemaObject : json) : string := serialize "" schemaObject.


(** ** [JSON.parse(text)] (ECMA-262, 25.5.1; grammar of ECMA-404)

    Error messages follow V8's wording; only their being non-empty matters
    to the core.  A [\u] escape naming a code unit of 256 or more has no
    image in the string model and is reported as an error. *)

Definition json_ws (c : ascii) : bool :=
  let n := code c in (n =? 9) || (n =? 10) || (n =? 13) || (n =? 32).

Fixpoint skip_ws (s : string) : string :=
  match s with
  | String c r => if json_ws c then skip_ws r else s
  | EmptyString => s
  end.

Definition err_end : exn := SyntaxError "Unexpected end of JSON input".
Definition err_token : exn := SyntaxError "Unexpected token in JSON".

Definition is_digit (c : ascii) : bool := (48 <=? code c) && (code c <=? 57).

Definition hex_val (c : ascii) : option Z :=
  let n := code c in
  if (48 <=? n) && (n <=? 57) then Some (n - 48)
  else if (97 <=? n) && (n <=? 102) then Some (n - 87)
  else if (65 <=? n) && (n <=? 70) then Some (n - 55)
  else None.

(** Body of a string literal, after its opening quote. *)
Fixpoint parse_chars (s : string) : Exc (string * string) :=
  match s with
  | EmptyString => Throw (SyntaxError "Unterminated string in JSON")
  | String c r =>
      let n := code c in
      if n =? 34 then Ok (EmptyString, r)
      else if n =? 92 then
        match r with
        | EmptyString => Throw (SyntaxError "Unterminated string in JSON")
        | String "u" (String h1 (String h2 (String h3 (String h4 r')))) =>
            match hex_val h1, hex_val h2, hex_val h3, hex_val h4 with
            | Some a, Some b, Some c', Some d =>
                let u := ((a * 16 + b) * 16 + c') * 16 + d in
                if u <? 256 then
                  x <- parse_chars r' ;; Ok (String (chr u) (fst x), snd x)
                else Throw (SyntaxError "Unsupported code unit in JSON string")
            | _, _, _, _ => Throw (SyntaxError "Bad Unicode escape in JSON")
            end
        | String e r' =>
            let m := code e in
            let decoded :=
              if m =? 34 then Some 34 else if m =? 92 then Some 92
              else if m =? 47 then Some 47 else if m =? 98 then Some 8
              else if m =? 102 then Some 12 else if m =? 110 then Some 10
              else if m =? 114 then Some 13 else if m =? 116 then Some 9
              else None in
            match decoded with
            | Some d => x <- parse_chars r' ;; Ok (String (chr d) (fst x), snd x)
            | None => Throw (SyntaxError "Bad escaped character in JSON")
            end
        end
      else if n <? 32 then Throw (SyntaxError "Bad control character in string literal in JSON")
      else x <- parse_chars r ;; Ok (String c (fst x), snd x)
  end.

Fixpoint read_digits (s : string) : string * string :=
  match s with
  | String c r =>
      if is_digit c then let (ds, rest) := read_digits r in (String c ds, rest)
      else (EmptyString, s)
  | EmptyString => (EmptyString, EmptyString)
  end.

Fixpoint digits_value (acc : Z) (ds : string) : Z :=
  match ds with
  | EmptyString => acc
  | String c r => digits_value (acc * 10 + (code c - 48)) r
  end.

(** [-? (0 | [1-9][0-9]* ) (. [0-9]+)? ([eE] [+-]? [0-9]+)?] *)
Definition parse_number (s : string) : Exc (json * string) :=
  let '(neg, s1) := match s with
                    | String "-" r => (true, r)
                    | _ => (false, s)
                    end in
  let '(ip, s2) := read_digits s1 in
  match ip with
  | EmptyString => Throw err_token
  | String "0" (String _ _) => Throw err_token
  | _ =>
    let fr := match s2 with
              | String "." r => let '(fp, s3) := read_digits r in
                                match fp with EmptyString => None | _ => Some (fp, s3) end
              | _ => Some (EmptyString, s2)
              end in
    match fr with
    | None => Throw err_token
    | Some (fp, s3) =>
      let ex := match s3 with
                | String c r =>
                    if (Ascii.eqb c "e") || (Ascii.eqb c "E") then
                      let '(eneg, r1) := match r with
                                         | String "-" r' => (true, r')
                                         | String "+" r' => (false, r')
                                         | _ => (false, r)
                                         end in
                      let '(ed, s4) := read_digits r1 in
                      match ed with
                      | EmptyString => None
                      | _ => Some ((if eneg then - digits_value 0 ed else digits_value 0 ed), s4)
                      end
                    else Some (0, s3)
                | EmptyString => Some (0, s3)
                end in
      match ex with
      | None => Throw err_token
      | Some (e, s4) =>
          let m := digits_value 0 (ip ++ fp) in
          Ok (JNum (mk_num (if neg then - m else m) (e - Z.of_nat (String.length fp))), s4)
      end
    end
  end.

Definition char_is (c : ascii) (n : Z) : bool := code c =? n.

(** Values, object members and array elements.  [fuel] bounds the number
    of nested calls; [JSON_parse] gives one more than the length of the
    text, and every call consumes at least one character first. *)
Fixpoint parse_value (fuel : nat) (s : string) {struct fuel} : Exc (json * string) :=
  match fuel with
  | O => Throw (SyntaxError "Maximum call stack size exceeded")
  | S f =>
    match skip_ws s with
    | EmptyString => Throw err_end
    | String c r =>
      if char_is c 123 then
        match skip_ws r with
        | String c' r' => if char_is c' 125 then Ok (JObj [], r') else parse_members f r []
        | EmptyString => Throw err_end
        end
      else if char_is c 91 then
        match skip_ws r with
        | String c' r' => if char_is c' 93 then Ok (JArr [], r') else parse_elements f r []
        | EmptyString => Throw err_end
        end
      else if char_is c 34 then
        x <- parse_chars r ;; Ok (JStr (fst x), snd x)
      else if Ascii.eqb c "t" then
        if starts_with r "rue" then Ok (JBool true, substring 3 (String.length r - 3) r)
        else Throw err_token
      else if Ascii.eqb c "f" then
        if starts_with r "alse" then Ok (JBool false, substring 4 (String.length r - 4) r)
        else Throw err_token
      else if Ascii.eqb c "n" then
        if starts_with r "ull" then Ok (JNull, substring 3 (String.length r - 3) r)
        else Throw err_token
      else if Ascii.eqb c "-" || is_digit c then parse_number (String c r)
      else Throw err_token
    end
  end
with parse_members (fuel : nat) (s : string) (acc : list (string * json)) {struct fuel}
    : Exc (json * string) :=
  match fuel with
  | O => Throw (SyntaxError "Maximum call stack size exceeded")
  | S f =>
    match skip_ws s with
    | String c r =>
      if char_is c 34 then
        kr <- parse_chars r ;;
        match skip_ws (snd kr) with
        | String c2 r2 =>
          if char_is c2 58 then
            vr <- parse_value f r2 ;;
            let acc' := obj_set acc (fst kr) (fst vr) in
            match skip_ws (snd vr) with
            | String c3 r3 =>
              if char_is c3 44 then parse_members f r3 acc'
              else if char_is c3 125 then Ok (JObj acc', r3)
              else Throw err_token
            | EmptyString => Throw err_end
            end
          else Throw err_token
        | EmptyString => Throw err_end
        end
      else Throw err_token
    | EmptyString => Throw err_end
    end
  end
with parse_elements (fuel : nat) (s : string) (acc : list json) {struct fuel}
    : Exc (json * string) :=
  match fuel with
  | O => Throw (SyntaxError "Maximum call stack size exceeded")
  | S f =>
    vr <- parse_value f s ;;
    let acc' := (acc ++ [fst vr])%list in
    match skip_ws (snd vr) with
    | String c r =>
      if char_is c 44 then parse_elements f r acc'
      else if char_is c 93 then Ok (JArr acc', r)
      else Throw err_token
    | EmptyString => Throw err_end
    end
  end.

Definition JSON_parse (text : string) : Exc json :=
  vr <- parse_value (S (String.length text)) text ;;
  match skip_ws (snd vr) with
  | EmptyString => Ok (fst vr)
  | String _ _ => Throw (SyntaxError "Unexpected non-whitespace character after JSON")
  end.

(** ** [validateSchema] (lines 259-281) *)

Record ValidationResult := mkResult {
  valid : bool;
  error : option string;
  parsed : option (list (string * json))
}.

Definition objectOnlyMessage : string :=
  "Schema must be a JSON object, not an array or primitive value".

Definition validateSchema (schemaString : string) : Exc ValidationResult :=
  if is_blank schemaString then Ok {| valid := true; error := None; parsed := Some [] |}
  else
    try_catch
      (parsed <- JSON_parse schemaString ;;
       match parsed with
       | JObj o => Ok {| valid := true; error := None; parsed := Some o |}
       | _ => Ok {| valid := false; error := Some objectOnlyMessage; parsed := None |}
       end)
      (fun error =>
         Ok {| valid := false;
               error := Some (match error with
                              | SyntaxError message => message
                              | ThrownValue _ => "Invalid JSON syntax"
                              end);
               parsed := None |}).

(** ** Reading schema objects *)

Fixpoint json_path (v : json) (ks : list string) : option json :=
  match ks with
  | [] => Some v
  | k :: ks' =>
      match v with
      | JObj o => match obj_get o k with Some v' => json_path v' ks' | None => None end
      | _ => None
      end
  end.

Definition schema_props (s : json) : list (string * json) :=
  match json_path s ["properties"] with Some (JObj ps) => ps | _ => [] end.

Definition schema_required (s : json) : list json :=
  match json_path s ["required"] with Some (JArr l) => l | _ => [] end.

(** Order of the decimals [x] and [y], at a common exponent. *)
Definition num_le (x y : jsnum) : Prop :=
  let e := Z.min (exp10 x) (exp10 y) in
  mant x * 10 ^ (exp10 x - e) <= mant y * 10 ^ (exp10 y - e).

Definition num_leb (x y : jsnum) : bool :=
  let e := Z.min (exp10 x) (exp10 y) in
  mant x * 10 ^ (exp10 x - e) <=? mant y * 10 ^ (exp10 y - e).

(** Every keyword starts with a character that is not whitespace. *)
Definition keyword_heads_ok : bool :=
  forallb (fun p => forallb (fun k => match k with
                                      | String c _ => negb (js_ws c)
                                      | EmptyString => false
                                      end) (keywords p)) schemaPatterns.

(** Worked input of the spec (section 8). *)
Definition fraud_description : string :=
  "I want to identify which company emails are fraudulent".

Definition churn_description : string :=
  "Flag customers who cancel after a churn warning, by tag".

Definition tie_description : string := "Please review the price".

(** Every exception [JSON.parse] raises is an [Error] with a non-empty
    message. *)
Definition exn_message_nonempty (e : exn) : Prop :=
  match e with
  | SyntaxError m => m <> EmptyString
  | ThrownValue _ => False
  end.

Definition throws_syntax_error {A : Type} (m : Exc A) : Prop :=
  match m with
  | Ok _ => True
  | Throw e => exn_message_nonempty e
  end.

Definition array_schema_text : string := "[1,2,3]".
Definition object_schema_text : string := "{" ++ dq ++ "a" ++ dq ++ ":1}".
Definition broken_schema_text : string := "{" ++ dq ++ "a" ++ dq ++ ":}".

(** Opening lines of a formatted schema: two spaces of indentation per
    level, keys in insertion order. *)
Definition layout_prefix : string :=
  "{" ++ nl ++ "  " ++ dq ++ "type" ++ dq ++ ": " ++ dq ++ "object" ++ dq ++ "," ++ nl ++
  "  " ++ dq ++ "properties" ++ dq ++ ": {" ++ nl ++ "    " ++ dq.

(** The two invariants of a SchemaObject (section 3). *)
Definition schema_invariants (s : json) : Prop :=
  (forall r, In r (schema_required s) ->
     exists name, r = JStr name /\ obj_get (schema_props s) name <> None) /\
  (forall name f lo hi, In (name, f) (schema_props s) ->
     json_path f ["minimum"] = Some (JNum lo) ->
     json_path f ["maximum"] = Some (JNum hi) -> num_le lo hi).

Definition required_ok (s : json) : bool :=
  forallb (fun r => match r with
                    | JStr name => match obj_get (schema_props s) name with
                                   | Some _ => true
                                   | None => false
                                   end
                    | _ => false
                    end) (schema_required s).

Definition bounds_ok (s : json) : bool :=
  forallb (fun kv => match json_path (snd kv) ["minimum"], json_path (snd kv) ["maximum"] with
                     | Some (JNum lo), Some (JNum hi) => num_leb lo hi
                     | _, _ => true
                     end) (schema_props s).

Definition estimate_description : string := "Estimate the house".

(** ** Field shapes of a generated schema *)

Definition field_type_ok (t : string) : bool :=
  existsb (String.eqb t) ["string"; "number"; "integer"; "boolean"; "object"; "array"].

(** A property of a generated schema: a known [type], a string
    [description], [items] exactly on arrays, bounds only on numbers. *)
Definition field_shape_ok (f : json) : bool :=
  match json_path f ["type"], json_path f ["description"] with
  | Some (JStr t), Some (JStr _) =>
      field_type_ok t &&
      Bool.eqb (match json_path f ["items"] with Some _ => true | None => false end)
               (String.eqb t "array") &&
      (match json_path f ["minimum"], json_path f ["maximum"] with
       | None, None => true
       | _, _ => String.eqb t "number" || String.eqb t "integer"
       end)
  | _, _ => false
  end.

Definition fields_ok (s : json) : bool :=
  forallb (fun kv => field_shape_ok (snd kv)) (schema_props s).

(** * The model-creation wizard [CreateModelContent] (lines 294-873)

    The component's state is a record with one field per [useState] (the
    [copiedSchema] flag of the clipboard buttons, lines 389-394, is left
    out).  An event handler is a function on that record; the [useEffect]
    that depends on a field a handler changed runs right after it.
    Firestore ([addDoc], [onSnapshot]), [startTraining] and the router live
    outside this file: what they return is a parameter, the calls the
    component makes are returned as a list of effects.  The timestamps
    [createdAt] and [updatedAt] ([Timestamp.now()]) are left out of the
    stored record, and [handleSubmit] runs as one step (nothing else is
    scheduled during its [await]). *)

(** ** JS strings as UTF-16 code units

    The model name is built with [toUpperCase], which can leave the Latin-1
    range, so it is kept as a list of code units. *)

Definition units (s : string) : list Z := map code (list_ascii_of_string s).

(** WhiteSpace and LineTerminator code units (the [\s] class). *)
Definition js_ws_unit (u : Z) : bool :=
  ((9 <=? u) && (u <=? 13)) || (u =? 32) || (u =? 160) || (u =? 5760) ||
  ((8192 <=? u) && (u <=? 8202)) || (u =? 8232) || (u =? 8233) || (u =? 8239) ||
  (u =? 8287) || (u =? 12288) || (u =? 65279).

(** [String.prototype.toUpperCase] of one code unit below 256, with the
    full Unicode case mapping: a-z and U+00E0..U+00FE except U+00F7 are
    shifted by 32, U+00DF becomes "SS", U+00B5 becomes U+039C and U+00FF
    becomes U+0178. *)
Definition js_upper_units (c : ascii) : list Z :=
  let n := code c in
  if (97 <=? n) && (n <=? 122) then [n - 32]
  else if n =? 181 then [924]
  else if n =? 223 then [83; 83]
  else if (224 <=? n) && (n <=? 254) && negb (n =? 247) then [n - 32]
  else if n =? 255 then [376]
  else [n].

(** [String.prototype.trim] *)
Fixpoint ltrim (s : string) : string :=
  match s with
  | EmptyString => EmptyString
  | String c r => if js_ws c then ltrim r else s
  end.

Fixpoint rtrim (s : string) : string :=
  match s with
  | EmptyString => EmptyString
  | String c r =>
      match rtrim r with
      | EmptyString => if js_ws c then EmptyString else String c EmptyString
      | r' => String c r'
      end
  end.

Definition trim (s : string) : string := rtrim (ltrim s).

(** [s.split(/\s+/)]: the head of the result is the piece being read;
    [inrun] is set inside a run of whitespace, which separates once. *)
Fixpoint split_ws_aux (s : string) (inrun : bool) : list string :=
  match s with
  | EmptyString => [EmptyString]
  | String c r =>
      if js_ws c then
        if inrun then split_ws_aux r true else EmptyString :: split_ws_aux r true
      else
        match split_ws_aux r false with
        | w :: ws => String c w :: ws
        | [] => [String c EmptyString]
        end
  end.

Definition split_ws (s : string) : list string := split_ws_aux s false.

(** [word.charAt(0).toUpperCase() + word.slice(1).toLowerCase()] *)
Definition capitalize (word : string) : list Z :=
  match word with
  | EmptyString => []
  | String c r => (js_upper_units c ++ units (toLowerCase r))%list
  end.

(** [words.join(" ")] *)
Fixpoint join_space (ws : list (list Z)) : list Z :=
  match ws with
  | [] => []
  | [w] => w
  | w :: r => (w ++ 32 :: join_space r)%list
  end.

(** The name the effect of lines 340-348 computes. *)
Definition generatedName (problemDescription : string) : list Z :=
  join_space (map capitalize (firstn 4 (split_ws (trim problemDescription)))).

(** ** Wizard state *)

Inductive Step := Step1 | Step2 | Step3 | StepTraining | StepSuccess.

Definition Step_eqb (a b : Step) : bool :=
  match a, b with
  | Step1, Step1 | Step2, Step2 | Step3, Step3
  | StepTraining, StepTraining | StepSuccess, StepSuccess => true
  | _, _ => false
  end.

Inductive DataSourceType := DSCsv | DSS3.

Record File := mkFile { fileName : string; fileSize : Z }.

Record AuthUser := mkUser { uid : string }.

(** [copiedSchema] (line 331). *)
Inductive SchemaKind := SKInput | SKOutput.

(** The state of [CreateModelContent] (lines 320-338), and [pendingSubmits]:
    the number of [handleSubmit] calls suspended at [await addDoc(...)]
    (line 420), whose continuation still runs when [addDoc] answers. *)
Record Wizard := mkWizard {
  step : Step;
  modelId : option string;
  problemDescription : string;
  modelName : list Z;
  nameManuallyEdited : bool;
  inputSchemaString : string;
  outputSchemaString : string;
  inputSchemaError : option string;
  outputSchemaError : option string;
  dataSourceType : DataSourceType;
  csvFile : option File;
  s3BucketUrl : string;
  s3Region : string;
  s3AccessKeyId : string;
  s3SecretAccessKey : string;
  copiedSchema : option SchemaKind;
  pendingSubmits : nat
}.

Definition initialWizard : Wizard :=
  mkWizard Step1 None "" [] false "" "" None None DSCsv None "" "us-east-1" "" "" None 0%nat.

Definition setStep (st : Wizard) (v : Step) : Wizard :=
  mkWizard v (modelId st) (problemDescription st) (modelName st) (nameManuallyEdited st)
    (inputSchemaString st) (outputSchemaString st) (inputSchemaError st) (outputSchemaError st)
    (dataSourceType st) (csvFile st) (s3BucketUrl st) (s3Region st) (s3AccessKeyId st)
    (s3SecretAccessKey st)
    (copiedSchema st) (pendingSubmits st).

Definition setModelId (st : Wizard) (v : option string) : Wizard :=
  mkWizard (step st) v (problemDescription st) (modelName st) (nameManuallyEdited st)
    (inputSchemaString st) (outputSchemaString st) (inputSchemaError st) (outputSchemaError st)
    (dataSourceType st) (csvFile st) (s3BucketUrl st) (s3Region st) (s3AccessKeyId st)
    (s3SecretAccessKey st)
    (copiedSchema st) (pendingSubmits st).

Definition setProblemDescription (st : Wizard) (v : string) : Wizard :=
  mkWizard (step st) (modelId st) v (modelName st) (nameManuallyEdited st)
    (inputSchemaString st) (outputSchemaString st) (inputSchemaError st) (outputSchemaError st)
    (dataSourceType st) (csvFile st) (s3BucketUrl st) (s3Region st) (s3AccessKeyId st)
    (s3SecretAccessKey st)
    (copiedSchema st) (pendingSubmits st).

Definition setModelName (st : Wizard) (v : list Z) : Wizard :=
  mkWizard (step st) (modelId st) (problemDescription st) v (nameManuallyEdited st)
    (inputSchemaString st) (outputSchemaString st) (inputSchemaError st) (outputSchemaError st)
    (dataSourceType st) (csvFile st) (s3BucketUrl st) (s3Region st) (s3AccessKeyId st)
    (s3SecretAccessKey st)
    (copiedSchema st) (pendingSubmits st).

Definition setNameManuallyEdited (st : Wizard) (v : bool) : Wizard :=
  mkWizard (step st) (modelId st) (problemDescription st) (modelName st) v
    (inputSchemaString st) (outputSchemaString st) (inputSchemaError st) (outputSchemaError st)
    (dataSourceType st) (csvFile st) (s3BucketUrl st) (s3Region st) (s3AccessKeyId st)
    (s3SecretAccessKey st)
    (copiedSchema st) (pendingSubmits st).

Definition setInputSchemaString (st : Wizard) (v : string) : Wizard :=
  mkWizard (step st) (modelId st) (problemDescription st) (modelName st) (nameManuallyEdited st)
    v (outputSchemaString st) (inputSchemaError st) (outputSchemaError st)
    (dataSourceType st) (csvFile st) (s3BucketUrl st) (s3Region st) (s3AccessKeyId st)
    (s3SecretAccessKey st)
    (copiedSchema st) (pendingSubmits st).

Definition setOutputSchemaString (st : Wizard) (v : string) : Wizard :=
  mkWizard (step st) (modelId st) (problemDescription st) (modelName st) (nameManuallyEdited st)
    (inputSchemaString st) v (inputSchemaError st) (outputSchemaError st)
    (dataSourceType st) (csvFile st) (s3BucketUrl st) (s3Region st) (s3AccessKeyId st)
    (s3SecretAccessKey st)
    (copiedSchema st) (pendingSubmits st).

Definition setInputSchemaError (st : Wizard) (v : option string) : Wizard :=
  mkWizard (step st) (modelId st) (problemDescription st) (modelName st) (nameManuallyEdited st)
    (inputSchemaString st) (outputSchemaString st) v (outputSchemaError st)
    (dataSourceType st) (csvFile st) (s3BucketUrl st) (s3Region st) (s3AccessKeyId st)
    (s3SecretAccessKey st)
    (copiedSchema st) (pendingSubmits st).

Definition setOutputSchemaError (st : Wizard) (v : option string) : Wizard :=
  mkWizard (step st) (modelId st) (problemDescription st) (modelName st) (nameManuallyEdited st)
    (inputSchemaString st) (outputSchemaString st) (inputSchemaError st) v
    (dataSourceType st) (csvFile st) (s3BucketUrl st) (s3Region st) (s3AccessKeyId st)
    (s3SecretAccessKey st)
    (copiedSchema st) (pendingSubmits st).

Definition setCopiedSchema (st : Wizard) (v : option SchemaKind) : Wizard :=
  mkWizard (step st) (modelId st) (problemDescription st) (modelName st) (nameManuallyEdited st)
    (inputSchemaString st) (outputSchemaString st) (inputSchemaError st) (outputSchemaError st)
    (dataSourceType st) (csvFile st) (s3BucketUrl st) (s3Region st) (s3AccessKeyId st)
    (s3SecretAccessKey st) v (pendingSubmits st).

Definition setPendingSubmits (st : Wizard) (v : nat) : Wizard :=
  mkWizard (step st) (modelId st) (problemDescription st) (modelName st) (nameManuallyEdited st)
    (inputSchemaString st) (outputSchemaString st) (inputSchemaError st) (outputSchemaError st)
    (dataSourceType st) (csvFile st) (s3BucketUrl st) (s3Region st) (s3AccessKeyId st)
    (s3SecretAccessKey st) (copiedSchema st) v.

(** JS truthiness of a string and of a [string | null]. *)
Definition truthy_str (s : string) : bool :=
  match s with EmptyString => false | String _ _ => true end.

Definition truthy_opt (e : option string) : bool :=
  match e with Some s => truthy_str s | None => false end.

(** ** Step 1: description and model name *)

(** The effect of lines 340-348, run when [problemDescription] or
    [nameManuallyEdited] changed. *)
Definition nameEffect (st : Wizard) : Wizard :=
  if negb (nameManuallyEdited st) && truthy_str (problemDescription st)
  then setModelName st (generatedName (problemDescription st))
  else st.

(** The description textarea (line 555). *)
Definition onProblemDescriptionChange (value : string) (st : Wizard) : Wizard :=
  nameEffect (setProblemDescription st value).

(** The name input (lines 566-569). *)
Definition onModelNameChange (value : list Z) (st : Wizard) : Wizard :=
  nameEffect (setNameManuallyEdited (setModelName st value) true).

(** Lines 354-358. *)
Definition handleStep1Continue (st : Wizard) : Wizard :=
  if truthy_str (trim (problemDescription st)) then setStep st Step2 else st.

(** [disabled] of the step-1 button (line 579). *)
Definition step1Disabled (st : Wizard) : bool :=
  negb (truthy_str (trim (problemDescription st))).

(** ** Step 2: data source *)

(** Lines 360-371. *)
Definition handleStep2Continue (st : Wizard) : Wizard :=
  let isValid :=
    match dataSourceType st with
    | DSCsv => match csvFile st with Some _ => true | None => false end
    | DSS3 => truthy_str (s3BucketUrl st) && truthy_str (s3AccessKeyId st) &&
              truthy_str (s3SecretAccessKey st)
    end in
  if isValid then
    let schemas := generateSchemas (problemDescription st) in
    setStep (setOutputSchemaString (setInputSchemaString st (formatSchema (input schemas)))
                                   (formatSchema (output schemas))) Step3
  else st.

(** [disabled] of the step-2 button (lines 688-690). *)
Definition step2Disabled (st : Wizard) : bool :=
  match dataSourceType st with
  | DSCsv => match csvFile st with Some _ => false | None => true end
  | DSS3 => negb (truthy_str (s3BucketUrl st)) || negb (truthy_str (s3AccessKeyId st)) ||
            negb (truthy_str (s3SecretAccessKey st))
  end.

(** The back buttons (lines 683 and 845). *)
Definition onBackToProblem (st : Wizard) : Wizard := setStep st Step1.

Definition onBackToDataSource (st : Wizard) : Wizard := setStep st Step2.

(** ** Step 3: schema editors *)

(** [validation.valid ? null : validation.error || null] *)
Definition schemaErrorOf (validation : ValidationResult) : option string :=
  if valid validation then None
  else match error validation with
       | Some m => if truthy_str m then Some m else None
       | None => None
       end.

(** Lines 374-379; [value || ""] maps [undefined] to the empty string.  An
    exception of [validateSchema] would leave the handler. *)
Definition handleInputSchemaChange (value : option string) (st : Wizard) : Exc Wizard :=
  let newValue := match value with Some v => v | None => "" end in
  let st := setInputSchemaString st newValue in
  validation <- validateSchema newValue ;;
  Ok (setInputSchemaError st (schemaErrorOf validation)).

(** Lines 381-386. *)
Definition handleOutputSchemaChange (value : option string) (st : Wizard) : Exc Wizard :=
  let newValue := match value with Some v => v | None => "" end in
  let st := setOutputSchemaString st newValue in
  validation <- validateSchema newValue ;;
  Ok (setOutputSchemaError st (schemaErrorOf validation)).

(** [disabled] of the create button (line 851). *)
Definition step3Disabled (st : Wizard) : bool :=
  truthy_opt (inputSchemaError st) || truthy_opt (outputSchemaError st).

(** ** Submission and training *)

Inductive DataSource :=
| CsvSource (fileName : option string) (fileSize : option Z)
| S3Source (bucketUrl region accessKeyId secretAccessKey : string).

(** The document [handleSubmit] adds to the [models] collection. *)
Record ModelDoc := mkDoc {
  userId : string;
  name : list Z;
  docProblemDescription : string;
  dataSource : DataSource;
  status : string;
  inputSchema : list (string * json);
  outputSchema : list (string * json)
}.

Inductive Effect :=
| AddDoc (d : ModelDoc)
| StartTraining (id : string)
| ConsoleError
| ClipboardWrite (text : string)
| UncaughtError.

Definition untitledModel : list Z := units "Untitled Model".

(** Lines 406-428 up to the call of [addDoc]: the document handleSubmit
    adds for the signed-in user [u]. *)
Definition submitDocument (u : AuthUser) (st : Wizard) : Exc ModelDoc :=
  let dataSource :=
    match dataSourceType st with
    | DSCsv => CsvSource (option_map fileName (csvFile st)) (option_map fileSize (csvFile st))
    | DSS3 => S3Source (s3BucketUrl st) (s3Region st) (s3AccessKeyId st) (s3SecretAccessKey st)
    end in
  inputSchemaValidation <- validateSchema (inputSchemaString st) ;;
  outputSchemaValidation <- validateSchema (outputSchemaString st) ;;
  Ok (mkDoc (uid u)
        (match modelName st with [] => untitledModel | n => n end)
        (problemDescription st) dataSource "training"
        (match parsed inputSchemaValidation with Some o => o | None => [] end)
        (match parsed outputSchemaValidation with Some o => o | None => [] end)).

(** Lines 402-430 until [await addDoc(...)] suspends the handler: the
    document is sent and one more call waits for its answer.  A throw
    before the call reaches the [catch] of line 439. *)
Definition handleSubmitStart (user : option AuthUser) (st : Wizard) : Wizard * list Effect :=
  match user with
  | None => (st, [])
  | Some u =>
      match submitDocument u st with
      | Ok d => (setPendingSubmits st (S (pendingSubmits st)), [AddDoc d])
      | Throw _ => (st, [ConsoleError])
      end
  end.

(** Lines 432-441, run when [addDoc] answers, whatever the wizard shows by
    then: [addDocResult] is the new document's id, or the error [addDoc]
    rejects with (caught at line 439).  [startTraining] is not awaited. *)
Definition handleSubmitAnswer (addDocResult : Exc string) (st : Wizard) : Wizard * list Effect :=
  let st := setPendingSubmits st (pred (pendingSubmits st)) in
  match addDocResult with
  | Ok id => (setStep (setModelId st (Some id)) StepTraining, [StartTraining id])
  | Throw _ => (st, [ConsoleError])
  end.

(** Lines 402-442 when [addDoc] answers before anything else happens. *)
Definition handleSubmit (user : option AuthUser) (addDocResult : Exc string) (st : Wizard)
  : Wizard * list Effect :=
  match user with
  | None => (st, [])
  | Some u =>
      match submitDocument u st with
      | Ok d =>
          let r := handleSubmitAnswer addDocResult (setPendingSubmits st (S (pendingSubmits st))) in
          (fst r, (AddDoc d :: snd r)%list)
      | Throw _ => (st, [ConsoleError])
      end
  end.

(** Lines 396-400, with the answer of [addDoc] coming at once. *)
Definition handleStep3Continue (user : option AuthUser) (addDocResult : Exc string) (st : Wizard)
  : Wizard * list Effect :=
  if negb (truthy_opt (inputSchemaError st)) && negb (truthy_opt (outputSchemaError st))
  then handleSubmit user addDocResult st
  else (st, []).

(** Lines 396-400 until [handleSubmit] suspends at [await addDoc(...)]. *)
Definition handleStep3Start (user : option AuthUser) (st : Wizard) : Wizard * list Effect :=
  if negb (truthy_opt (inputSchemaError st)) && negb (truthy_opt (outputSchemaError st))
  then handleSubmitStart user st
  else (st, []).

(** The copy buttons (lines 389-394, 726 and 786).  [clipboardAvailable]
    is false where [navigator.clipboard] is undefined (a page without a
    secure context): reading [writeText] then throws a TypeError before any
    state is set, which [None] stands for.  The promise [writeText] returns
    is not awaited.  The timer set at line 393 is the event
    [EvCopyTimerFired]. *)
Definition handleCopySchema (type_ : SchemaKind) (clipboardAvailable : bool) (st : Wizard)
  : option (Wizard * list Effect) :=
  let text := match type_ with SKInput => inputSchemaString st | SKOutput => outputSchemaString st end in
  if clipboardAvailable then Some (setCopiedSchema st (Some type_), [ClipboardWrite text])
  else None.

(** The [onSnapshot] listener of lines 444-456, subscribed while [modelId]
    is set and the step is ["training"]; [docStatus] is the [status] field
    of the model document. *)
Definition onModelSnapshot (docStatus : option string) (st : Wizard) : Wizard * list Effect :=
  if truthy_opt (modelId st) && Step_eqb (step st) StepTraining then
    match docStatus with
    | Some s =>
        if String.eqb s "completed" then (setStep st StepSuccess, [])
        else if String.eqb s "failed" then (st, [ConsoleError])
        else (st, [])
    | None => (st, [])
    end
  else (st, []).

(** ** Data-source inputs (lines 624-680) *)

Definition setDataSourceType (st : Wizard) (v : DataSourceType) : Wizard :=
  mkWizard (step st) (modelId st) (problemDescription st) (modelName st) (nameManuallyEdited st)
    (inputSchemaString st) (outputSchemaString st) (inputSchemaError st) (outputSchemaError st)
    v (csvFile st) (s3BucketUrl st) (s3Region st) (s3AccessKeyId st) (s3SecretAccessKey st)
    (copiedSchema st) (pendingSubmits st).

Definition setCsvFile (st : Wizard) (v : option File) : Wizard :=
  mkWizard (step st) (modelId st) (problemDescription st) (modelName st) (nameManuallyEdited st)
    (inputSchemaString st) (outputSchemaString st) (inputSchemaError st) (outputSchemaError st)
    (dataSourceType st) v (s3BucketUrl st) (s3Region st) (s3AccessKeyId st) (s3SecretAccessKey st)
    (copiedSchema st) (pendingSubmits st).

Definition setS3BucketUrl (st : Wizard) (v : string) : Wizard :=
  mkWizard (step st) (modelId st) (problemDescription st) (modelName st) (nameManuallyEdited st)
    (inputSchemaString st) (outputSchemaString st) (inputSchemaError st) (outputSchemaError st)
    (dataSourceType st) (csvFile st) v (s3Region st) (s3AccessKeyId st) (s3SecretAccessKey st)
    (copiedSchema st) (pendingSubmits st).

Definition setS3Region (st : Wizard) (v : string) : Wizard :=
  mkWizard (step st) (modelId st) (problemDescription st) (modelName st) (nameManuallyEdited st)
    (inputSchemaString st) (outputSchemaString st) (inputSchemaError st) (outputSchemaError st)
    (dataSourceType st) (csvFile st) (s3BucketUrl st) v (s3AccessKeyId st) (s3SecretAccessKey st)
    (copiedSchema st) (pendingSubmits st).

Definition setS3AccessKeyId (st : Wizard) (v : string) : Wizard :=
  mkWizard (step st) (modelId st) (problemDescription st) (modelName st) (nameManuallyEdited st)
    (inputSchemaString st) (outputSchemaString st) (inputSchemaError st) (outputSchemaError st)
    (dataSourceType st) (csvFile st) (s3BucketUrl st) (s3Region st) v (s3SecretAccessKey st)
    (copiedSchema st) (pendingSubmits st).

Definition setS3SecretAccessKey (st : Wizard) (v : string) : Wizard :=
  mkWizard (step st) (modelId st) (problemDescription st) (modelName st) (nameManuallyEdited st)
    (inputSchemaString st) (outputSchemaString st) (inputSchemaError st) (outputSchemaError st)
    (dataSourceType st) (csvFile st) (s3BucketUrl st) (s3Region st) (s3AccessKeyId st) v
    (copiedSchema st) (pendingSubmits st).

(** ** The component as an event loop

    The controls of a step are rendered only on that step
    ([{step === 1 && ...}], lines 539, 588 and 700; the training and
    success screens, lines 467-521, only navigate away), and a disabled
    button does not call its handler.  The [onSnapshot] listener runs on
    every step; it checks its own subscription condition.  Create is a
    single event [EvStep3Continue] when [addDoc] answers before anything
    else happens; otherwise it is [EvCreateClick], and the answer comes
    later as [EvAddDocAnswer] while the button stays enabled.  The
    continuation after [await addDoc(...)] and the copy timer do not depend
    on the step shown.  An error thrown by an event handler is reported
    ([UncaughtError]) and the component keeps the state it had. *)

Inductive UIEvent :=
| EvProblemDescription (value : string)
| EvModelName (value : list Z)
| EvStep1Continue
| EvDataSourceType (t : DataSourceType)
| EvCsvFile (f : option File)
| EvS3BucketUrl (value : string)
| EvS3Region (value : string)
| EvS3AccessKeyId (value : string)
| EvS3SecretAccessKey (value : string)
| EvBackToProblem
| EvStep2Continue
| EvInputSchema (value : option string)
| EvOutputSchema (value : option string)
| EvBackToDataSource
| EvStep3Continue (user : option AuthUser) (addDocResult : Exc string)
| EvCreateClick (user : option AuthUser)
| EvAddDocAnswer (addDocResult : Exc string)
| EvCopySchema (type_ : SchemaKind) (clipboardAvailable : bool)
| EvCopyTimerFired
| EvModelSnapshot (docStatus : option string).

Definition dispatch (ev : UIEvent) (st : Wizard) : Exc (Wizard * list Effect) :=
  match ev, step st with
  | EvProblemDescription v, Step1 => Ok (onProblemDescriptionChange v st, [])
  | EvModelName v, Step1 => Ok (onModelNameChange v st, [])
  | EvStep1Continue, Step1 => Ok (if step1Disabled st then st else handleStep1Continue st, [])
  | EvDataSourceType t, Step2 => Ok (setDataSourceType st t, [])
  | EvCsvFile f, Step2 => Ok (setCsvFile st f, [])
  | EvS3BucketUrl v, Step2 => Ok (setS3BucketUrl st v, [])
  | EvS3Region v, Step2 => Ok (setS3Region st v, [])
  | EvS3AccessKeyId v, Step2 => Ok (setS3AccessKeyId st v, [])
  | EvS3SecretAccessKey v, Step2 => Ok (setS3SecretAccessKey st v, [])
  | EvBackToProblem, Step2 => Ok (onBackToProblem st, [])
  | EvStep2Continue, Step2 => Ok (if step2Disabled st then st else handleStep2Continue st, [])
  | EvInputSchema v, Step3 => st' <- handleInputSchemaChange v st ;; Ok (st', [])
  | EvOutputSchema v, Step3 => st' <- handleOutputSchemaChange v st ;; Ok (st', [])
  | EvBackToDataSource, Step3 => Ok (onBackToDataSource st, [])
  | EvStep3Continue u a, Step3 =>
      Ok (if step3Disabled st then (st, []) else handleStep3Continue u a st)
  | EvCreateClick u, Step3 => Ok (if step3Disabled st then (st, []) else handleStep3Start u st)
  | EvAddDocAnswer a, _ =>
      Ok (if Nat.eqb (pendingSubmits st) 0 then (st, []) else handleSubmitAnswer a st)
  | EvCopySchema t c, Step3 =>
      Ok (match handleCopySchema t c st with Some r => r | None => (st, [UncaughtError]) end)
  | EvCopyTimerFired, _ => Ok (setCopiedSchema st None, [])
  | EvModelSnapshot s, _ => Ok (onModelSnapshot s st)
  | _, _ => Ok (st, [])
  end.

(** A sequence of events, with the effects of all of them in order. *)
Fixpoint run (evs : list UIEvent) (st : Wizard) : Exc (Wizard * list Effect) :=
  match evs with
  | [] => Ok (st, [])
  | ev :: evs' =>
      r1 <- dispatch ev st ;;
      r2 <- run evs' (fst r1) ;;
      Ok (fst r2, (snd r1 ++ snd r2)%list)
  end.

Definition is_name_event (ev : UIEvent) : bool :=
  match ev with EvModelName _ => true | _ => false end.

Definition is_input_schema_event (ev : UIEvent) : bool :=
  match ev with EvInputSchema _ => true | _ => false end.

Definition is_output_schema_event (ev : UIEvent) : bool :=
  match ev with EvOutputSchema _ => true | _ => false end.

Definition editing_step (s : Step) : bool :=
  match s with Step1 | Step2 | Step3 => true | StepTraining | StepSuccess => false end.

(** The last character of [s] is whitespace. *)
Fixpoint ends_with_ws (s : string) : bool :=
  match s with
  | EmptyString => false
  | String c EmptyString => js_ws c
  | String _ r => ends_with_ws r
  end.

(** A document with a name and the status "training". *)
Definition doc_ok (d : ModelDoc) : Prop := name d <> [] /\ status d = "training".

(** Sample inputs of the worked runs. *)
Definition demoUser : AuthUser := mkUser "user-1".

Definition demoFile : File := mkFile "emails.csv" 2048.

Definition demo_events : list UIEvent :=
  [EvProblemDescription fraud_description; EvStep1Continue; EvCsvFile (Some demoFile);
   EvStep2Continue; EvStep3Continue (Some demoUser) (Ok "model-1");
   EvModelSnapshot (Some "completed")].

(** The same run with the copy buttons, Create clicked twice before
    [addDoc] answers, and the two answers. *)
Definition demo_events_async : list UIEvent :=
  [EvProblemDescription fraud_description; EvStep1Continue; EvCsvFile (Some demoFile);
   EvStep2Continue; EvCopySchema SKInput true; EvCopyTimerFired; EvCopySchema SKOutput false;
   EvCreateClick (Some demoUser); EvCreateClick (Some demoUser);
   EvAddDocAnswer (Ok "model-1"); EvAddDocAnswer (Ok "model-2");
   EvModelSnapshot (Some "completed")].

Definition demoNamedWizard : Wizard := onModelNameChange (units "Email fraud model") initialWizard.

Definition demoStep2 : Wizard :=
  mkWizard Step2 None fraud_description [] false "" "" None None DSCsv (Some demoFile)
    "" "us-east-1" "" "" None 0%nat.

Definition demoStep3 : Wizard := handleStep2Continue demoStep2.

Definition demoStep3Broken : Wizard :=
  mkWizard Step3 None fraud_description [] false broken_schema_text "" (Some "Unexpected token in JSON")
    None DSCsv (Some demoFile) "" "us-east-1" "" "" None 0%nat.

(** ** The matcher loop *)

Section Scan.

Variable ld : string.

Lemma scan_step_cases : forall st p,
  scan_step ld st p = st \/
  (scan_step ld st p = (Some p, effectivePriority p ld) /\
   (0 < matchCount p ld)%nat /\ snd st < effectivePriority p ld).
Proof.
  intros [bm hp] p. unfold scan_step, effectivePriority; simpl.
  destruct (Nat.ltb_spec 0 (matchCount p ld)) as [Hm|Hm]; [|auto].
  destruct (Z.ltb_spec hp (priority p * Z.of_nat (matchCount p ld))); auto.
Qed.

(** The loop never lowers the running maximum, ends at least as high as
    every matching entry, and its winner is either the initial one or a
    matching entry of the list whose score is the final maximum. *)
Lemma scan_spec : forall l bm hp,
  let r := fold_left (scan_step ld) l (bm, hp) in
  hp <= snd r /\
  (forall p, In p l -> (0 < matchCount p ld)%nat -> effectivePriority p ld <= snd r) /\
  ((fst r = bm /\ snd r = hp) \/
   exists w, In w l /\ fst r = Some w /\ snd r = effectivePriority w ld /\
             (0 < matchCount w ld)%nat /\ hp < snd r).
Proof.
  induction l as [|a l IH]; intros bm hp; simpl.
  - split; [lia|]. split; [tauto|]. left; auto.
  - destruct (scan_step_cases (bm, hp) a) as [E|(E & Hm & Hlt)]; rewrite E.
    + destruct (IH bm hp) as (H1 & H2 & H3). split; [exact H1|]. split.
      * intros p [->|Hp] Hmp; [|auto].
        unfold scan_step in E; simpl in E.
        apply Nat.ltb_lt in Hmp. rewrite Hmp in E.
        unfold effectivePriority.
        destruct (Z.ltb_spec hp (priority p * Z.of_nat (matchCount p ld))); [|lia].
        inversion E. lia.
      * destruct H3 as [H3|(w & Hw & H3)]; [left; exact H3|right; exists w; auto].
    + simpl in Hlt. destruct (IH (Some a) (effectivePriority a ld)) as (H1 & H2 & H3).
      split; [lia|]. split.
      * intros p [<-|Hp] Hmp; [lia|auto].
      * right. destruct H3 as [[F S']|(w & Hw & H3 & H4 & H5 & H6)].
        -- exists a. rewrite F, S'. auto.
        -- exists w. repeat split; auto; lia.
Qed.

Lemma scan_keep : forall l st,
  (forall q, In q l -> (0 < matchCount q ld)%nat -> effectivePriority q ld <= snd st) ->
  fold_left (scan_step ld) l st = st.
Proof.
  induction l as [|a l IH]; intros st H; simpl; [reflexivity|].
  destruct (scan_step_cases st a) as [E|(E & Hm & Hlt)].
  - rewrite E. apply IH. intros q Hq. apply H. right; exact Hq.
  - specialize (H a (or_introl eq_refl) Hm). lia.
Qed.

Lemma scan_congr : forall ld' l st,
  (forall p, In p l -> matchCount p ld = matchCount p ld') ->
  fold_left (scan_step ld) l st = fold_left (scan_step ld') l st.
Proof.
  intros ld' l. induction l as [|a l IH]; intros st H; simpl; [reflexivity|].
  unfold scan_step at 2 4. rewrite (H a (or_introl eq_refl)).
  apply IH. intros p Hp. apply H. right; exact Hp.
Qed.

(** The entry at position [i] wins when it matches, reaches the maximum,
    and every earlier entry scores strictly less. *)
Lemma first_argmax_wins : forall l i p,
  (forall q, In q l -> 0 < priority q) ->
  nth_error l i = Some p ->
  (0 < matchCount p ld)%nat ->
  (forall q, In q l -> effectivePriority q ld <= effectivePriority p ld) ->
  (forall j q, (j < i)%nat -> nth_error l j = Some q ->
               effectivePriority q ld < effectivePriority p ld) ->
  fold_left (scan_step ld) l (None, -1) = (Some p, effectivePriority p ld).
Proof.
  intros l i p Hpos Hi Hm Hmax Hfirst.
  destruct (nth_error_split l i Hi) as (l1 & l2 & -> & Hlen).
  rewrite fold_left_app. simpl.
  assert (Hp : 0 < effectivePriority p ld).
  { unfold effectivePriority. apply Z.mul_pos_pos; [apply Hpos; apply in_or_app; right; left; reflexivity | lia]. }
  assert (Hbelow : snd (fold_left (scan_step ld) l1 (None, -1)) < effectivePriority p ld).
  { destruct (scan_spec l1 None (-1)) as (_ & _ & [[_ ->]|(w & Hw & _ & -> & _)]); [lia|].
    destruct (In_nth_error l1 w Hw) as (j & Hj).
    assert (Hjl : (j < List.length l1)%nat) by (apply nth_error_Some; congruence).
    apply (Hfirst j w); [lia|]. rewrite nth_error_app1; assumption. }
  destruct (fold_left (scan_step ld) l1 (None, -1)) as [bm hp] eqn:E1. simpl in Hbelow.
  unfold scan_step at 2. simpl.
  apply Nat.ltb_lt in Hm as Hm'. rewrite Hm'.
  fold (effectivePriority p ld).
  destruct (Z.ltb_spec hp (effectivePriority p ld)) as [_|]; [|lia].
  apply scan_keep. simpl. intros q Hq _. apply Hmax. apply in_or_app; right; right; exact Hq.
Qed.

End Scan.

(** ** Facts about the catalog and the matcher *)

(** Case split on membership in the catalog, one goal per entry. *)
Ltac in_catalog H :=
  simpl in H;
  repeat match type of H with
         | _ \/ _ => destruct H as [<-|H]
         | False => destruct H
         end.

Lemma priorities_pos : forall q, In q schemaPatterns -> 0 < priority q.
Proof.
  intros q Hq. in_catalog Hq; simpl; lia.
Qed.

Lemma js_lower_ws : forall c, js_ws c = true -> js_lower_char c = c.
Proof.
  intros [[] [] [] [] [] [] [] []]; vm_compute; congruence.
Qed.

Lemma is_blank_lower : forall s, is_blank s = true -> is_blank (toLowerCase s) = true.
Proof.
  induction s as [|c r IH]; simpl; [reflexivity|].
  intros H. apply andb_true_iff in H as [Hc Hr].
  rewrite js_lower_ws by exact Hc. rewrite Hc. simpl. apply IH, Hr.
Qed.

Lemma blank_not_includes : forall s c k,
  is_blank s = true -> js_ws c = false -> includes s (String c k) = false.
Proof.
  induction s as [|x r IH]; intros c k Hb Hc; simpl; [reflexivity|].
  simpl in Hb. apply andb_true_iff in Hb as [Hx Hr].
  rewrite (IH c k Hr Hc), orb_false_r.
  destruct (Ascii.eqb_spec c x) as [->|]; [congruence|reflexivity].
Qed.

Lemma keyword_heads_ok_true : keyword_heads_ok = true.
Proof. vm_compute. reflexivity. Qed.

Lemma matchCount_zero : forall p s,
  (forall k, In k (keywords p) -> includes s k = false) -> matchCount p s = 0%nat.
Proof.
  intros p s H. unfold matchCount.
  induction (keywords p) as [|k ks IH]; simpl; [reflexivity|].
  rewrite (H k (or_introl eq_refl)). apply IH. intros k' Hk'. apply H. right; exact Hk'.
Qed.

(** A blank description matches no keyword. *)
Lemma blank_no_match : forall d p,
  is_blank d = true -> In p schemaPatterns -> matchCount p (toLowerCase d) = 0%nat.
Proof.
  intros d p Hb Hp. apply matchCount_zero. intros k Hk.
  pose proof keyword_heads_ok_true as H. unfold keyword_heads_ok in H.
  rewrite forallb_forall in H. specialize (H p Hp). rewrite forallb_forall in H.
  specialize (H k Hk).
  destruct k as [|c k]; [discriminate|].
  apply blank_not_includes; [apply is_blank_lower, Hb|].
  apply negb_true_iff, H.
Qed.

Lemma match_not_blank : forall d p,
  In p schemaPatterns -> (0 < matchCount p (toLowerCase d))%nat -> is_blank d = false.
Proof.
  intros d p Hp Hm. destruct (is_blank d) eqn:Hb; [|reflexivity].
  rewrite (blank_no_match d p Hb Hp) in Hm. lia.
Qed.

Lemma bestMatch_some : forall d w,
  bestMatch d = Some w ->
  In w schemaPatterns /\ (0 < matchCount w (toLowerCase d))%nat /\
  forall p, In p schemaPatterns -> effectivePriority p (toLowerCase d) <= effectivePriority w (toLowerCase d).
Proof.
  intros d w E. unfold bestMatch, scan in E.
  destruct (scan_spec (toLowerCase d) schemaPatterns None (-1)) as (_ & H2 & [[H3 _]|(w' & Hw' & H3 & H4 & H5 & _)]);
    rewrite E in H3; [discriminate|].
  injection H3 as <-. repeat split; auto.
  intros p Hp. destruct (matchCount p (toLowerCase d)) eqn:Hm.
  - unfold effectivePriority at 1. rewrite Hm. simpl.
    unfold effectivePriority. pose proof (priorities_pos w Hw'). lia.
  - rewrite <- H4. apply H2; [exact Hp|lia].
Qed.

Lemma bestMatch_none : forall d,
  bestMatch d = None -> forall p, In p schemaPatterns -> matchCount p (toLowerCase d) = 0%nat.
Proof.
  intros d E p Hp. unfold bestMatch, scan in E.
  destruct (scan_spec (toLowerCase d) schemaPatterns None (-1)) as (_ & H2 & [[_ H3]|(w' & _ & H3 & _)]);
    [|rewrite E in H3; discriminate].
  destruct (matchCount p (toLowerCase d)) eqn:Hm; [reflexivity|].
  specialize (H2 p Hp ltac:(lia)). rewrite H3 in H2.
  unfold effectivePriority in H2. rewrite Hm in H2. pose proof (priorities_pos p Hp). lia.
Qed.

Lemma generateSchemas_some : forall d w,
  bestMatch d = Some w -> generateSchemas d = generator w tt.
Proof.
  intros d w E. destruct (bestMatch_some d w E) as (Hw & Hm & _).
  unfold generateSchemas. rewrite (match_not_blank d w Hw Hm), E. reflexivity.
Qed.

Lemma generateSchemas_none : forall d,
  bestMatch d = None -> generateSchemas d = getDefaultSchema tt.
Proof.
  intros d E. unfold generateSchemas. rewrite E. destruct (is_blank d); reflexivity.
Qed.

Lemma generateSchemas_cases : forall d,
  generateSchemas d = getDefaultSchema tt \/
  exists p, In p schemaPatterns /\ generateSchemas d = generator p tt.
Proof.
  intros d. destruct (bestMatch d) as [w|] eqn:E.
  - right. exists w. split; [apply (bestMatch_some d w E)|apply generateSchemas_some, E].
  - left. apply generateSchemas_none, E.
Qed.

Lemma generators_not_default : forall p,
  In p schemaPatterns -> generator p tt <> getDefaultSchema tt.
Proof.
  intros p Hp. in_catalog Hp;
    intro H; apply (f_equal input) in H; vm_compute in H; congruence.
Qed.

Lemma priorities_le_10 : forall q, In q schemaPatterns -> priority q <= 10.
Proof.
  intros q Hq. in_catalog Hq; simpl; lia.
Qed.

(** * Claims *)

(** C1 (as stated, refuted): on "I want to identify which company emails
    are fraudulent" the fraud entry does not have matchCount 1 and
    effectiveScore 10: "fraud" and "fraudulent" both occur. *)
Lemma C1_counterexample :
  matchCount fraudPattern (toLowerCase fraud_description) <> 1%nat /\
  effectivePriority fraudPattern (toLowerCase fraud_description) <> 10.
Proof. split; vm_compute; congruence. Qed.

(** C1 (amended): on "I want to identify which company emails are
    fraudulent" the fraud entry wins with matchCount 2 and effectiveScore
    20, every other entry scores 0, and the output schema requires
    ["is_fraudulent"; "confidence"] with confidence bounded by 0 and 1. *)
Theorem C1_fraud_example :
  let ld := toLowerCase fraud_description in
  let out := output (generateSchemas fraud_description) in
  bestMatch fraud_description = Some fraudPattern /\
  matchCount fraudPattern ld = 2%nat /\
  effectivePriority fraudPattern ld = 20 /\
  map (fun p => effectivePriority p ld) schemaPatterns = [20; 0; 0; 0; 0; 0; 0; 0; 0; 0] /\
  generateSchemas fraud_description = generator fraudPattern tt /\
  json_path out ["required"] = Some (JArr [JStr "is_fraudulent"; JStr "confidence"]) /\
  json_path out ["properties"; "confidence"; "minimum"] = Some (JNum (num_of_Z 0)) /\
  json_path out ["properties"; "confidence"; "maximum"] = Some (JNum (num_of_Z 1)).
Proof. vm_compute. repeat split. Qed.

(** C2: the matcher returns the generator result of a matching entry whose
    effectiveScore (priority times the number of its keywords contained in
    the lower-cased description) is maximal, and the default when nothing
    matches; a description containing exactly the churn keywords "churn" and
    "cancel", and at most one keyword of every other entry, selects the churn
    entry with effectiveScore 20. *)
Theorem C2_matcher_argmax : forall d,
  let ld := toLowerCase d in
  (forall w, bestMatch d = Some w ->
     generateSchemas d = generator w tt /\ In w schemaPatterns /\
     (0 < matchCount w ld)%nat /\
     forall p, In p schemaPatterns -> effectivePriority p ld <= effectivePriority w ld) /\
  (bestMatch d = None ->
     generateSchemas d = getDefaultSchema tt /\
     forall p, In p schemaPatterns -> matchCount p ld = 0%nat) /\
  (includes ld "churn" = true -> includes ld "cancel" = true ->
   matchCount churnPattern ld = 2%nat ->
   (forall p, In p schemaPatterns -> p <> churnPattern -> (matchCount p ld <= 1)%nat) ->
   bestMatch d = Some churnPattern /\ effectivePriority churnPattern ld = 20 /\
   generateSchemas d = generator churnPattern tt).
Proof.
  intros d ld. split; [|split].
  - intros w E. destruct (bestMatch_some d w E) as (Hw & Hm & Hmax).
    split; [apply generateSchemas_some, E|auto].
  - intros E. split; [apply generateSchemas_none, E|apply bestMatch_none, E].
  - intros _ _ Hc Hother.
    assert (Hep : effectivePriority churnPattern ld = 20)
      by (unfold effectivePriority; rewrite Hc; reflexivity).
    assert (Hle : forall q, In q schemaPatterns -> q <> churnPattern ->
                  effectivePriority q ld <= 10).
    { intros q Hq Hne. specialize (Hother q Hq Hne).
      pose proof (priorities_pos q Hq). pose proof (priorities_le_10 q Hq).
      unfold effectivePriority. nia. }
    assert (Hscan : scan ld = (Some churnPattern, effectivePriority churnPattern ld)).
    { apply (first_argmax_wins ld schemaPatterns 1 churnPattern priorities_pos eq_refl).
      - rewrite Hc. lia.
      - intros q Hq. rewrite Hep. pose proof Hq as Hq'.
        in_catalog Hq';
          first [ lia
                | apply Z.le_trans with 10; [|lia]; apply Hle; [exact Hq|];
                  intro H; apply (f_equal keywords) in H; discriminate ].
      - intros j q Hj Hq. destruct j as [|j]; [|lia]. injection Hq as <-.
        assert (Hne : fraudPattern <> churnPattern)
          by (intro H; apply (f_equal keywords) in H; discriminate).
        specialize (Hle fraudPattern (or_introl eq_refl) Hne). lia. }
    assert (Hb : bestMatch d = Some churnPattern) by (unfold bestMatch; fold ld; rewrite Hscan; reflexivity).
    split; [exact Hb|]. split; [exact Hep|]. apply generateSchemas_some, Hb.
Qed.

Lemma C2_matcher_argmax_witness :
  bestMatch churn_description = Some churnPattern /\
  effectivePriority churnPattern (toLowerCase churn_description) = 20 /\
  generateSchemas churn_description = generator churnPattern tt.
Proof.
  destruct (C2_matcher_argmax churn_description) as (_ & _ & H).
  apply H; [vm_compute; reflexivity|vm_compute; reflexivity|vm_compute; reflexivity|].
  intros p Hp Hne. in_catalog Hp;
    first [ exfalso; apply Hne; reflexivity | vm_compute; lia ].
Defined.

(** C3 (as stated, refuted): the catalog is not declared in the order of
    section 4.1; the classification entry comes before the pricing entry. *)
Lemma C3_counterexample :
  map (fun p => (keywords p, priority p)) schemaPatterns <>
  [(["fraud"; "fraudulent"; "scam"; "spam"; "phishing"; "fake"], 10);
   (["churn"; "retention"; "attrition"; "cancel"; "unsubscribe"], 10);
   (["sentiment"; "emotion"; "feeling"; "opinion"; "review"], 9);
   (["price"; "pricing"; "cost"; "estimate"; "valuation"; "worth"], 9);
   (["classify"; "classification"; "categorize"; "category"; "label"; "tag"], 8);
   (["recommend"; "recommendation"; "suggest"; "personalize"], 8);
   (["anomaly"; "outlier"; "abnormal"; "unusual"; "detect"], 8);
   (["image"; "photo"; "picture"; "visual"; "recognize"], 7);
   (["summarize"; "summary"; "extract"; "abstract"; "tldr"], 7);
   (["predict"; "forecast"; "estimate"], 5)].
Proof. discriminate. Qed.

(** C3 (amended): the catalog is declared in the order fraud, churn,
    sentiment, classify, price, recommend, anomaly, image, summarize,
    predict, with the keyword sets and priorities of section 4.1; when
    several entries reach the maximal effectiveScore, generateSchemas
    returns the result of the earliest-declared one. *)
Theorem C3_tie_first_declared :
  map (fun p => (keywords p, priority p)) schemaPatterns =
  [(["fraud"; "fraudulent"; "scam"; "spam"; "phishing"; "fake"], 10);
   (["churn"; "retention"; "attrition"; "cancel"; "unsubscribe"], 10);
   (["sentiment"; "emotion"; "feeling"; "opinion"; "review"], 9);
   (["classify"; "classification"; "categorize"; "category"; "label"; "tag"], 8);
   (["price"; "pricing"; "cost"; "estimate"; "valuation"; "worth"], 9);
   (["recommend"; "recommendation"; "suggest"; "personalize"], 8);
   (["anomaly"; "outlier"; "abnormal"; "unusual"; "detect"], 8);
   (["image"; "photo"; "picture"; "visual"; "recognize"], 7);
   (["summarize"; "summary"; "extract"; "abstract"; "tldr"], 7);
   (["predict"; "forecast"; "estimate"], 5)] /\
  forall d i p,
    let ld := toLowerCase d in
    nth_error schemaPatterns i = Some p ->
    (0 < matchCount p ld)%nat ->
    (forall q, In q schemaPatterns -> effectivePriority q ld <= effectivePriority p ld) ->
    (forall j q, (j < i)%nat -> nth_error schemaPatterns j = Some q ->
                 effectivePriority q ld < effectivePriority p ld) ->
    bestMatch d = Some p /\ generateSchemas d = generator p tt.
Proof.
  split; [reflexivity|].
  intros d i p ld Hi Hm Hmax Hfirst.
  assert (Hb : bestMatch d = Some p).
  { unfold bestMatch, scan. fold ld.
    rewrite (first_argmax_wins ld schemaPatterns i p priorities_pos Hi Hm Hmax Hfirst).
    reflexivity. }
  split; [exact Hb|apply generateSchemas_some, Hb].
Qed.

Lemma C3_tie_first_declared_witness :
  bestMatch tie_description = Some sentimentPattern /\
  generateSchemas tie_description = generator sentimentPattern tt.
Proof.
  destruct C3_tie_first_declared as [_ H].
  apply (H tie_description 2%nat sentimentPattern eq_refl); [vm_compute; lia| |].
  - intros q Hq. in_catalog Hq; vm_compute; congruence.
  - intros j q Hj Hq. destruct j as [|[|j]]; [| |lia]; injection Hq as <-; vm_compute; reflexivity.
Defined.

Lemma matchCount_zero_inv : forall p s,
  matchCount p s = 0%nat -> forall k, In k (keywords p) -> includes s k = false.
Proof.
  intros p s. unfold matchCount.
  induction (keywords p) as [|k0 ks IH]; simpl; intros H k Hk; [contradiction|].
  destruct (includes s k0) eqn:E; simpl in H; [discriminate|].
  destruct Hk as [<-|Hk]; [exact E|apply IH; assumption].
Qed.

(** C4: generateSchemas returns the Default Schema exactly when the
    description is empty or whitespace-only (decided before the catalog is
    consulted) or it contains none of the catalog keywords, matched as
    everywhere in the catalog scan against the lower-cased description; the Default Schema has input properties data, features,
    metadata with required ["data"], and output properties prediction,
    confidence, metadata with required ["prediction"] and confidence
    bounded by 0 and 1. *)
Theorem C4_default_schema :
  (forall d, is_blank d = true -> generateSchemas d = getDefaultSchema tt) /\
  (forall d, generateSchemas d = getDefaultSchema tt <->
             is_blank d = true \/
             forall p k, In p schemaPatterns -> In k (keywords p) ->
                         includes (toLowerCase d) k = false) /\
  map fst (schema_props (input (getDefaultSchema tt))) = ["data"; "features"; "metadata"] /\
  schema_required (input (getDefaultSchema tt)) = [JStr "data"] /\
  map fst (schema_props (output (getDefaultSchema tt))) = ["prediction"; "confidence"; "metadata"] /\
  schema_required (output (getDefaultSchema tt)) = [JStr "prediction"] /\
  json_path (output (getDefaultSchema tt)) ["properties"; "confidence"; "minimum"] = Some (JNum (num_of_Z 0)) /\
  json_path (output (getDefaultSchema tt)) ["properties"; "confidence"; "maximum"] = Some (JNum (num_of_Z 1)).
Proof.
  split; [|split; [|vm_compute; repeat split]].
  - intros d Hb. unfold generateSchemas. rewrite Hb. reflexivity.
  - intros d. split.
    + intros H. destruct (is_blank d) eqn:Hb; [left; reflexivity|right].
      destruct (bestMatch d) as [w|] eqn:E.
      * destruct (bestMatch_some d w E) as (Hw & _).
        rewrite (generateSchemas_some d w E) in H. exfalso. exact (generators_not_default w Hw H).
      * intros p k Hp Hk. apply (matchCount_zero_inv p); [apply bestMatch_none; assumption|exact Hk].
    + intros [Hb|Hnone]; [unfold generateSchemas; rewrite Hb; reflexivity|].
      apply generateSchemas_none.
      destruct (bestMatch d) as [w|] eqn:E; [|reflexivity].
      destruct (bestMatch_some d w E) as (Hw & Hm & _).
      rewrite (matchCount_zero w) in Hm; [lia|].
      intros k Hk. apply (Hnone w k Hw Hk).
Qed.

Lemma C4_default_schema_witness :
  generateSchemas "  " = getDefaultSchema tt /\
  generateSchemas "hello world" = getDefaultSchema tt.
Proof.
  destruct C4_default_schema as (Hblank & Hiff & _).
  split; [apply Hblank; reflexivity|].
  apply Hiff. right. intros p k Hp Hk. in_catalog Hp; in_catalog Hk; reflexivity.
Defined.

(** ** The parser raises only [Error]s with a message *)

Lemma bind_throws : forall (A B : Type) (m : Exc A) (k : A -> Exc B),
  throws_syntax_error m -> (forall a, throws_syntax_error (k a)) ->
  throws_syntax_error (bind m k).
Proof. intros A B [a|e] k Hm Hk; simpl; [apply Hk|exact Hm]. Qed.

Ltac solve_throws :=
  unfold err_token, err_end;
  repeat match goal with
  | |- throws_syntax_error (Ok _) => exact I
  | |- throws_syntax_error (Throw (SyntaxError _)) => simpl; discriminate
  | |- throws_syntax_error (bind _ _) => apply bind_throws; [|intro]
  | |- throws_syntax_error (if ?b then _ else _) => destruct b
  | |- throws_syntax_error (match ?x with _ => _ end) => destruct x
  end.

Lemma parse_chars_throws : forall s, throws_syntax_error (parse_chars s).
Proof.
  intros s. remember (String.length s) as n eqn:Hn.
  revert s Hn. induction n as [n IH] using lt_wf_ind. intros s Hn.
  destruct s as [|c r]; simpl; [discriminate|].
  repeat match goal with
  | |- throws_syntax_error (parse_chars ?t) => apply (IH (String.length t)); [simpl in *; lia|reflexivity]
  | |- throws_syntax_error (Ok _) => exact I
  | |- throws_syntax_error (Throw (SyntaxError _)) => simpl; discriminate
  | |- throws_syntax_error (bind _ _) => apply bind_throws; [|intro]
  | |- throws_syntax_error (if ?b then _ else _) => destruct b
  | |- throws_syntax_error (match ?x with _ => _ end) => destruct x
  end.
Qed.

Lemma parse_number_throws : forall s, throws_syntax_error (parse_number s).
Proof. intros s. unfold parse_number. solve_throws. Qed.

Lemma parse_throws : forall fuel,
  (forall s, throws_syntax_error (parse_value fuel s)) /\
  (forall s acc, throws_syntax_error (parse_members fuel s acc)) /\
  (forall s acc, throws_syntax_error (parse_elements fuel s acc)).
Proof.
  induction fuel as [|f (IHv & IHm & IHe)]; repeat split; intros; simpl;
    try (simpl; discriminate).
  all: unfold err_token, err_end;
    repeat match goal with
    | |- throws_syntax_error (parse_value _ _) => apply IHv
    | |- throws_syntax_error (parse_members _ _ _) => apply IHm
    | |- throws_syntax_error (parse_elements _ _ _) => apply IHe
    | |- throws_syntax_error (parse_chars _) => apply parse_chars_throws
    | |- throws_syntax_error (parse_number _) => apply parse_number_throws
    | |- throws_syntax_error (Ok _) => exact I
    | |- throws_syntax_error (Throw (SyntaxError _)) => simpl; discriminate
    | |- throws_syntax_error (bind _ _) => apply bind_throws; [|intro]
    | |- throws_syntax_error (if ?b then _ else _) => destruct b
    | |- throws_syntax_error (match ?x with _ => _ end) => destruct x
    end.
Qed.

Lemma JSON_parse_throws : forall s, throws_syntax_error (JSON_parse s).
Proof.
  intros s. unfold JSON_parse. apply bind_throws; [apply parse_throws|].
  intros [v r]. simpl. destruct (skip_ws r); [exact I|simpl; discriminate].
Qed.

(** C5: validateSchema returns {valid:true, parsed:{}} on an empty or
    whitespace-only string; otherwise {valid:false} with a non-empty error
    when JSON parsing fails, {valid:false} with the fixed object-only message
    when the parsed value is not an object, and {valid:true} with the parsed
    object when it is one; error is present iff valid is false and parsed is
    present iff valid is true. *)
Theorem C5_validate_shapes : forall s, exists r,
  validateSchema s = Ok r /\
  (valid r = false <-> error r <> None) /\
  (valid r = true <-> parsed r <> None) /\
  (is_blank s = true -> r = {| valid := true; error := None; parsed := Some [] |}) /\
  (is_blank s = false ->
     (forall e, JSON_parse s = Throw e ->
        valid r = false /\ exists m, error r = Some m /\ m <> EmptyString) /\
     (forall v, JSON_parse s = Ok v -> (forall o, v <> JObj o) ->
        r = {| valid := false; error := Some objectOnlyMessage; parsed := None |}) /\
     (forall o, JSON_parse s = Ok (JObj o) ->
        r = {| valid := true; error := None; parsed := Some o |})).
Proof.
  intros s. unfold validateSchema.
  destruct (is_blank s) eqn:Hb.
  - eexists. split; [reflexivity|]. simpl.
    split; [split; congruence|]. split; [split; congruence|].
    split; [reflexivity|discriminate].
  - pose proof (JSON_parse_throws s) as Ht.
    destruct (JSON_parse s) as [v|e] eqn:E; simpl.
    + destruct v; eexists; (split; [reflexivity|]); simpl;
        (split; [split; congruence|]); (split; [split; congruence|]);
        (split; [discriminate|]); intros _;
        (split; [intros e' He'; discriminate|]);
        (split; [intros v' Hv' Hn; inversion Hv'; subst; try reflexivity|
                 intros o' Ho'; inversion Ho'; subst; reflexivity]).
      exfalso. exact (Hn l eq_refl).
    + eexists. split; [reflexivity|]. simpl.
      split; [split; congruence|]. split; [split; congruence|].
      split; [discriminate|]. intros _.
      split; [|split; intros; discriminate].
      intros e' He'. injection He' as <-. split; [reflexivity|].
      destruct e as [m|v]; simpl in Ht; [|contradiction].
      exists m. split; [reflexivity|exact Ht].
Qed.

Lemma C5_validate_shapes_witness :
  validateSchema "" = Ok {| valid := true; error := None; parsed := Some [] |} /\
  validateSchema array_schema_text =
    Ok {| valid := false; error := Some objectOnlyMessage; parsed := None |} /\
  validateSchema object_schema_text =
    Ok {| valid := true; error := None; parsed := Some [("a", JNum (num_of_Z 1))] |} /\
  (exists r, validateSchema broken_schema_text = Ok r /\ valid r = false /\
             exists m, error r = Some m /\ m <> EmptyString).
Proof.
  split; [|split; [|split]].
  - destruct (C5_validate_shapes "") as (r & E & _ & _ & Hb & _).
    rewrite E, (Hb eq_refl). reflexivity.
  - destruct (C5_validate_shapes array_schema_text) as (r & E & _ & _ & _ & Hn).
    destruct (Hn eq_refl) as (_ & Harr & _).
    rewrite E, (Harr (JArr [JNum (num_of_Z 1); JNum (num_of_Z 2); JNum (num_of_Z 3)]));
      [reflexivity|vm_compute; reflexivity|discriminate].
  - destruct (C5_validate_shapes object_schema_text) as (r & E & _ & _ & _ & Hn).
    destruct (Hn eq_refl) as (_ & _ & Hobj).
    rewrite E, (Hobj [("a", JNum (num_of_Z 1))]); [reflexivity|vm_compute; reflexivity].
  - destruct (C5_validate_shapes broken_schema_text) as (r & E & _ & _ & _ & Hn).
    destruct (Hn eq_refl) as (Hthrow & _ & _).
    exists r. split; [exact E|].
    apply (Hthrow err_token). vm_compute. reflexivity.
Defined.

(** C6: validateSchema never throws: on every input it returns a result,
    and an exception raised by JSON parsing is caught and returned as
    {valid:false, error} carrying the exception's message ("Invalid JSON
    syntax" for a thrown value that is not an Error). *)
Theorem C6_validate_never_throws : forall s,
  (exists r, validateSchema s = Ok r) /\
  (is_blank s = false -> forall e, JSON_parse s = Throw e ->
     validateSchema s =
       Ok {| valid := false;
             error := Some (match e with
                            | SyntaxError m => m
                            | ThrownValue _ => "Invalid JSON syntax"
                            end);
             parsed := None |}).
Proof.
  intros s. unfold validateSchema. destruct (is_blank s) eqn:Hb.
  - split; [eexists; reflexivity|discriminate].
  - split.
    + destruct (JSON_parse s) as [v|e]; simpl; [destruct v|]; eexists; reflexivity.
    + intros _ e E. rewrite E. reflexivity.
Qed.

Lemma C6_validate_never_throws_witness :
  validateSchema broken_schema_text =
    Ok {| valid := false; error := Some "Unexpected token in JSON"; parsed := None |}.
Proof.
  destruct (C6_validate_never_throws broken_schema_text) as [_ H].
  apply (H eq_refl err_token). vm_compute. reflexivity.
Defined.

(** C7: for every schema object generateSchemas produces, JSON-parsing
    formatSchema's text gives back the same object, keys in the same order,
    and the text is laid out with two spaces of indentation per level. *)
Theorem C7_format_roundtrip : forall d,
  let ss := generateSchemas d in
  JSON_parse (formatSchema (input ss)) = Ok (input ss) /\
  JSON_parse (formatSchema (output ss)) = Ok (output ss) /\
  starts_with (formatSchema (input ss)) layout_prefix = true /\
  starts_with (formatSchema (output ss)) layout_prefix = true.
Proof.
  intros d ss. subst ss.
  destruct (generateSchemas_cases d) as [->|(p & Hp & ->)].
  - vm_compute. repeat split.
  - in_catalog Hp; vm_compute; repeat split.
Qed.

Lemma schema_invariants_check : forall s,
  required_ok s = true -> bounds_ok s = true -> schema_invariants s.
Proof.
  intros s Hr Hbd. split.
  - intros r Hin. unfold required_ok in Hr. rewrite forallb_forall in Hr.
    specialize (Hr r Hin). destruct r; try discriminate.
    exists s0. split; [reflexivity|]. destruct (obj_get (schema_props s) s0); congruence.
  - intros name f lo hi Hin Hlo Hhi. unfold bounds_ok in Hbd. rewrite forallb_forall in Hbd.
    specialize (Hbd (name, f) Hin). cbn [snd] in Hbd. rewrite Hlo, Hhi in Hbd.
    unfold num_le. unfold num_leb in Hbd. apply Z.leb_le, Hbd.
Qed.

(** C8: both schema objects returned by generateSchemas list in required
    only names of their properties, and every field with both a minimum and
    a maximum has minimum <= maximum. *)
Theorem C8_schema_invariants : forall d,
  schema_invariants (input (generateSchemas d)) /\
  schema_invariants (output (generateSchemas d)).
Proof.
  intros d. destruct (generateSchemas_cases d) as [->|(p & Hp & ->)].
  - split; apply schema_invariants_check; vm_compute; reflexivity.
  - in_catalog Hp; split; apply schema_invariants_check; vm_compute; reflexivity.
Qed.

(** ** Substring facts *)

Lemma starts_with_app : forall k1 k2 s,
  starts_with s (k1 ++ k2) = true -> starts_with s k1 = true.
Proof.
  induction k1 as [|c k1 IH]; intros k2 s H; [destruct s; reflexivity|].
  destruct s as [|c' s]; simpl in *; [discriminate|].
  apply andb_true_iff in H as [Hc Hs]. rewrite Hc. simpl. apply (IH k2), Hs.
Qed.

Lemma includes_app : forall s k1 k2,
  includes s (k1 ++ k2) = true -> includes s k1 = true.
Proof.
  induction s as [|c s IH]; intros k1 k2 H.
  - destruct k1 as [|c k1]; [reflexivity|]. cbn in H. discriminate.
  - cbn [includes] in *. apply orb_true_iff in H as [H|H]; apply orb_true_iff.
    + left. apply (starts_with_app k1 k2), H.
    + right. apply (IH k1 k2), H.
Qed.

(** C9: "fraud" is a prefix of "fraudulent", so a description containing
    the word "fraudulent" in any letter case (the scan reads the lower-cased
    description) matches at least two keywords of the fraud entry and gives
    it an effectiveScore of at least 20. *)
Theorem C9_fraudulent_double_match : forall d,
  includes (toLowerCase d) "fraudulent" = true ->
  (2 <= matchCount fraudPattern (toLowerCase d))%nat /\
  20 <= effectivePriority fraudPattern (toLowerCase d).
Proof.
  intros d H1.
  assert (H2 : includes (toLowerCase d) "fraud" = true)
    by (apply (includes_app _ "fraud" "ulent"), H1).
  assert (Hm : (2 <= matchCount fraudPattern (toLowerCase d))%nat).
  { unfold matchCount. cbn [keywords fraudPattern filter]. rewrite H1, H2. simpl. lia. }
  split; [exact Hm|]. unfold effectivePriority. cbn [priority fraudPattern]. lia.
Qed.

Lemma C9_fraudulent_double_match_witness :
  (2 <= matchCount fraudPattern (toLowerCase "Flag FRAUDULENT charges"))%nat /\
  20 <= effectivePriority fraudPattern (toLowerCase "Flag FRAUDULENT charges").
Proof. apply C9_fraudulent_double_match. vm_compute. reflexivity. Defined.

(** C10: when "estimate" is the only catalog keyword in the lower-cased
    description, the pricing entry (priority 9) beats the prediction entry
    (priority 5), and generateSchemas returns the pricing SchemaSet, never
    the prediction one. *)
Theorem C10_estimate_goes_to_price : forall d,
  let ld := toLowerCase d in
  includes ld "estimate" = true ->
  (forall p k, In p schemaPatterns -> In k (keywords p) -> includes ld k = true -> k = "estimate") ->
  bestMatch d = Some pricePattern /\
  generateSchemas d = generator pricePattern tt /\
  generateSchemas d <> generator predictPattern tt.
Proof.
  intros d ld Hest Honly.
  assert (Hmc : forall p, In p schemaPatterns -> matchCount p ld = matchCount p "estimate").
  { intros p Hp. unfold matchCount. f_equal. apply filter_ext_in. intros k Hk.
    destruct (includes ld k) eqn:E.
    - rewrite (Honly p k Hp Hk E). reflexivity.
    - in_catalog Hp; in_catalog Hk; first [reflexivity | rewrite Hest in E; discriminate]. }
  assert (Hb : bestMatch d = Some pricePattern).
  { unfold bestMatch, scan. fold ld. rewrite (scan_congr ld "estimate" schemaPatterns (None, -1) Hmc).
    vm_compute. reflexivity. }
  split; [exact Hb|]. rewrite (generateSchemas_some d pricePattern Hb).
  split; [reflexivity|].
  intro H. apply (f_equal input) in H. vm_compute in H. congruence.
Qed.

Lemma C10_estimate_goes_to_price_witness :
  bestMatch estimate_description = Some pricePattern /\
  generateSchemas estimate_description = generator pricePattern tt /\
  generateSchemas estimate_description <> generator predictPattern tt.
Proof.
  apply C10_estimate_goes_to_price; [vm_compute; reflexivity|].
  intros p k Hp Hk. in_catalog Hp; in_catalog Hk; intro H; vm_compute in H;
    first [reflexivity | discriminate].
Defined.

(** * Further properties of the schema core and the wizard *)

(** ** Helper lemmas *)

Lemma js_lower_char_idem : forall c, js_lower_char (js_lower_char c) = js_lower_char c.
Proof.
  intros [[] [] [] [] [] [] [] []]; vm_compute; reflexivity.
Qed.

Lemma js_ws_lower_char : forall c, js_ws (js_lower_char c) = js_ws c.
Proof.
  intros [[] [] [] [] [] [] [] []]; vm_compute; reflexivity.
Qed.

Lemma toLowerCase_idem : forall s, toLowerCase (toLowerCase s) = toLowerCase s.
Proof.
  induction s as [|c r IH]; simpl; [reflexivity|]. rewrite js_lower_char_idem, IH. reflexivity.
Qed.

Lemma is_blank_toLowerCase : forall s, is_blank (toLowerCase s) = is_blank s.
Proof.
  induction s as [|c r IH]; simpl; [reflexivity|]. rewrite js_ws_lower_char, IH. reflexivity.
Qed.

Lemma skip_ws_blank : forall s, is_blank s = true ->
  skip_ws s = EmptyString \/
  exists c r, skip_ws s = String c r /\ js_ws c = true /\ json_ws c = false.
Proof.
  induction s as [|c r IH]; simpl; intros H; [left; reflexivity|].
  apply andb_true_iff in H as [Hc Hr].
  destruct (json_ws c) eqn:Ej; [apply IH, Hr|].
  right. exists c, r. auto.
Qed.

Lemma ws_not_token : forall c, js_ws c = true -> json_ws c = false ->
  char_is c 123 = false /\ char_is c 91 = false /\ char_is c 34 = false /\
  Ascii.eqb c "t" = false /\ Ascii.eqb c "f" = false /\ Ascii.eqb c "n" = false /\
  (Ascii.eqb c "-" || is_digit c) = false.
Proof.
  intros [[] [] [] [] [] [] [] []] H1 H2; vm_compute in H1, H2; try discriminate;
    vm_compute; repeat split.
Qed.

(** [JSON.parse] rejects every whitespace-only text. *)
Lemma JSON_parse_blank : forall s, is_blank s = true -> exists e, JSON_parse s = Throw e.
Proof.
  intros s H. unfold JSON_parse. cbn [parse_value].
  destruct (skip_ws_blank s H) as [E|(c & r & E & H1 & H2)]; rewrite E.
  - eexists. reflexivity.
  - destruct (ws_not_token c H1 H2) as (T1 & T2 & T3 & T4 & T5 & T6 & T7).
    rewrite T1, T2, T3, T4, T5, T6, T7. eexists. reflexivity.
Qed.

(** [validateSchema] returns on every input; an invalid result carries a
    non-empty message, and [parsed || {}] is what [JSON.parse] gives when it
    gives an object, [{}] otherwise. *)
Lemma validate_total : forall s, exists r,
  validateSchema s = Ok r /\
  (valid r = true -> error r = None) /\
  (valid r = false -> truthy_opt (error r) = true) /\
  match parsed r with Some o => o | None => [] end =
  match JSON_parse s with Ok (JObj o) => o | _ => [] end.
Proof.
  intros s. unfold validateSchema. destruct (is_blank s) eqn:Hb.
  - eexists. split; [reflexivity|]. simpl.
    split; [reflexivity|]. split; [discriminate|].
    destruct (JSON_parse_blank s Hb) as [e ->]. reflexivity.
  - pose proof (JSON_parse_throws s) as Ht.
    destruct (JSON_parse s) as [v|e]; simpl.
    + destruct v; eexists; (split; [reflexivity|]); simpl;
        (split; [first [discriminate | reflexivity]|]);
        (split; [first [discriminate | intros _; reflexivity]|]); reflexivity.
    + eexists. split; [reflexivity|]. simpl.
      split; [discriminate|]. split; [|reflexivity]. intros _.
      destruct e as [m|v]; simpl in Ht; [|contradiction].
      destruct m; [contradiction|reflexivity].
Qed.

Lemma trim_truthy : forall s, truthy_str (trim s) = negb (is_blank s).
Proof.
  intros s. unfold trim.
  assert (Hl : forall s, is_blank s = true -> ltrim s = EmptyString).
  { induction s0 as [|c r IH]; simpl; [reflexivity|].
    intros H. apply andb_true_iff in H as [Hc Hr]. rewrite Hc. apply IH, Hr. }
  assert (Hn : forall s, is_blank s = false -> exists c r, ltrim s = String c r /\ js_ws c = false).
  { induction s0 as [|c r IH]; simpl; [discriminate|].
    intros H. destruct (js_ws c) eqn:Hc; simpl in H; [apply IH, H|]. exists c, r. auto. }
  destruct (is_blank s) eqn:Hb.
  - rewrite (Hl s Hb). reflexivity.
  - destruct (Hn s Hb) as (c & r & -> & Hc). simpl.
    destruct (rtrim r); [rewrite Hc|]; reflexivity.
Qed.

Lemma step2_continue_cases : forall st,
  (step2Disabled st = true -> handleStep2Continue st = st) /\
  (step2Disabled st = false -> handleStep2Continue st =
     setStep (setOutputSchemaString
                (setInputSchemaString st (formatSchema (input (generateSchemas (problemDescription st)))))
                (formatSchema (output (generateSchemas (problemDescription st))))) Step3).
Proof.
  intros st. unfold step2Disabled, handleStep2Continue.
  destruct (dataSourceType st);
    [destruct (csvFile st)
    |destruct (truthy_str (s3BucketUrl st)), (truthy_str (s3AccessKeyId st)),
              (truthy_str (s3SecretAccessKey st))];
    cbn [negb orb andb]; split; intros H; first [discriminate | reflexivity].
Qed.

(** The texts step 2 writes into the editors validate back to the
    generated objects. *)
Lemma generated_texts_validate : forall d, exists oi oo,
  input (generateSchemas d) = JObj oi /\ output (generateSchemas d) = JObj oo /\
  validateSchema (formatSchema (JObj oi)) = Ok {| valid := true; error := None; parsed := Some oi |} /\
  validateSchema (formatSchema (JObj oo)) = Ok {| valid := true; error := None; parsed := Some oo |} /\
  oi <> [] /\ oo <> [].
Proof.
  intros d. destruct (generateSchemas_cases d) as [->|(p & Hp & ->)]; [|in_catalog Hp];
    (eexists _, _; split; [reflexivity|]; split; [reflexivity|]);
    (split; [vm_compute; reflexivity|]); (split; [vm_compute; reflexivity|]);
    split; discriminate.
Qed.

Lemma schemaErrorOf_result : forall r,
  (valid r = true -> error r = None) -> (valid r = false -> truthy_opt (error r) = true) ->
  schemaErrorOf r = (if valid r then None else error r).
Proof.
  intros [[] e p] H1 H2; unfold schemaErrorOf; simpl in *; [reflexivity|].
  specialize (H2 eq_refl). destruct e as [m|]; simpl in H2; [|discriminate].
  rewrite H2. reflexivity.
Qed.

(** ** Extra properties *)

(** X1: generateSchemas ignores letter case: a description and its
    lower-cased form get the same schemas. *)
Theorem generateSchemas_case_insensitive : forall d,
  generateSchemas (toLowerCase d) = generateSchemas d.
Proof.
  intros d. unfold generateSchemas, bestMatch.
  rewrite is_blank_toLowerCase, toLowerCase_idem. reflexivity.
Qed.

(** X2: every property of every generated schema has a type among string,
    number, integer, boolean, object and array and a string description;
    items appears exactly on the arrays, minimum and maximum only on numbers
    and integers. *)
Theorem generated_field_shapes : forall d,
  fields_ok (input (generateSchemas d)) = true /\ fields_ok (output (generateSchemas d)) = true.
Proof.
  intros d. destruct (generateSchemas_cases d) as [->|(p & Hp & ->)]; [|in_catalog Hp];
    split; vm_compute; reflexivity.
Qed.


(** X4: the step-1 button is disabled exactly when the description is
    empty or whitespace (the blank test of generateSchemas), and Continue
    then does nothing; otherwise it moves to step 2. *)
Theorem step1_continue_guard : forall st,
  step1Disabled st = is_blank (problemDescription st) /\
  handleStep1Continue st = if is_blank (problemDescription st) then st else setStep st Step2.
Proof.
  intros st. unfold step1Disabled, handleStep1Continue. rewrite trim_truthy.
  destruct (is_blank (problemDescription st)); split; reflexivity.
Qed.

(** X5: the step-2 button is disabled exactly when handleStep2Continue does
    nothing (no CSV file; or an S3 bucket URL, access key id or secret that
    is empty, the region is not checked); otherwise the handler moves to
    step 3 with both editors holding the formatted generated schemas, each
    of which validates to the generated object. *)
Theorem step2_continue_guard : forall st,
  (step2Disabled st = true -> handleStep2Continue st = st) /\
  (step2Disabled st = false ->
   exists oi oo,
     input (generateSchemas (problemDescription st)) = JObj oi /\
     output (generateSchemas (problemDescription st)) = JObj oo /\
     handleStep2Continue st =
       setStep (setOutputSchemaString (setInputSchemaString st (formatSchema (JObj oi)))
                                      (formatSchema (JObj oo))) Step3 /\
     validateSchema (formatSchema (JObj oi)) = Ok {| valid := true; error := None; parsed := Some oi |} /\
     validateSchema (formatSchema (JObj oo)) = Ok {| valid := true; error := None; parsed := Some oo |}).
Proof.
  intros st. destruct (step2_continue_cases st) as [H1 H2]. split; [exact H1|].
  intros Hd. destruct (generated_texts_validate (problemDescription st)) as (oi & oo & Ei & Eo & Vi & Vo & _).
  exists oi, oo. rewrite (H2 Hd), Ei, Eo. auto.
Qed.

(** X6: an edit of either schema editor stores the text ([undefined] as
    the empty text) and sets the editor's error to null when the text
    validates and to validateSchema's message otherwise; that message is
    never empty, so after an invalid edit the create button is disabled and
    Create does nothing. *)
Theorem schema_editor_change : forall value st,
  let newValue := match value with Some v => v | None => "" end in
  exists r,
    validateSchema newValue = Ok r /\
    handleInputSchemaChange value st =
      Ok (setInputSchemaError (setInputSchemaString st newValue) (if valid r then None else error r)) /\
    handleOutputSchemaChange value st =
      Ok (setOutputSchemaError (setOutputSchemaString st newValue) (if valid r then None else error r)) /\
    (valid r = false ->
     truthy_opt (error r) = true /\
     forall u a,
       let st1 := setInputSchemaError (setInputSchemaString st newValue) (error r) in
       let st2 := setOutputSchemaError (setOutputSchemaString st newValue) (error r) in
       step3Disabled st1 = true /\ handleStep3Continue u a st1 = (st1, []) /\
       step3Disabled st2 = true /\ handleStep3Continue u a st2 = (st2, [])).
Proof.
  intros value st newValue.
  destruct (validate_total newValue) as (r & E & H1 & H2 & _).
  exists r. split; [exact E|].
  unfold handleInputSchemaChange, handleOutputSchemaChange. fold newValue. rewrite E. simpl.
  rewrite (schemaErrorOf_result r H1 H2).
  split; [reflexivity|]. split; [reflexivity|].
  intros Hv. specialize (H2 Hv). split; [exact H2|]. intros u a.
  unfold step3Disabled, handleStep3Continue; simpl. rewrite H2. simpl.
  rewrite orb_true_r, andb_false_r. auto.
Qed.

(** [handleSubmit] builds its document from every state. *)
Lemma submitDocument_ok : forall u st, exists d,
  submitDocument u st = Ok d /\ userId d = uid u /\
  name d = match modelName st with [] => untitledModel | n => n end /\
  docProblemDescription d = problemDescription st /\ status d = "training" /\
  inputSchema d = match JSON_parse (inputSchemaString st) with Ok (JObj o) => o | _ => [] end /\
  outputSchema d = match JSON_parse (outputSchemaString st) with Ok (JObj o) => o | _ => [] end.
Proof.
  intros u st.
  destruct (validate_total (inputSchemaString st)) as (ri & Ei & _ & _ & Pi).
  destruct (validate_total (outputSchemaString st)) as (ro & Eo & _ & _ & Po).
  unfold submitDocument. rewrite Ei. cbn [bind]. rewrite Eo. cbn [bind].
  eexists. split; [reflexivity|].
  cbn [userId name docProblemDescription status inputSchema outputSchema].
  repeat split; first [reflexivity | assumption].
Qed.

Lemma untitled_nonempty : forall n : list Z, match n with [] => untitledModel | n => n end <> [].
Proof. intros [|x n]; discriminate. Qed.

(** X7: without a signed-in user handleSubmit does nothing.  With one it
    sends a single document before awaiting addDoc: the user's uid, the
    model name, or "Untitled Model" when the name is empty, status
    "training", and as each schema the object JSON.parse gives for the
    editor text, or {} when the text is blank, invalid or not an object;
    one more call then awaits the answer.  When addDoc succeeds the wizard
    records the new id, moves to the training step and starts training on
    that id; when it fails the state is unchanged and the error is logged. *)
Theorem handleSubmit_document : forall u addDocResult st,
  handleSubmitStart None st = (st, []) /\
  handleSubmit None addDocResult st = (st, []) /\
  exists d,
    userId d = uid u /\
    (modelName st = [] -> name d = untitledModel) /\
    (modelName st <> [] -> name d = modelName st) /\
    status d = "training" /\ docProblemDescription d = problemDescription st /\
    inputSchema d = match JSON_parse (inputSchemaString st) with Ok (JObj o) => o | _ => [] end /\
    outputSchema d = match JSON_parse (outputSchemaString st) with Ok (JObj o) => o | _ => [] end /\
    handleSubmitStart (Some u) st = (setPendingSubmits st (S (pendingSubmits st)), [AddDoc d]) /\
    (forall id, addDocResult = Ok id ->
       handleSubmit (Some u) addDocResult st =
         (setStep (setModelId st (Some id)) StepTraining, [AddDoc d; StartTraining id])) /\
    (forall e, addDocResult = Throw e ->
       handleSubmit (Some u) addDocResult st = (st, [AddDoc d; ConsoleError])).
Proof.
  intros u a st. split; [reflexivity|]. split; [reflexivity|].
  destruct (submitDocument_ok u st) as (d & Ed & Hu & Hn & Hp & Hs & Hi & Ho).
  exists d. split; [exact Hu|].
  split; [intros E; rewrite Hn, E; reflexivity|].
  split; [intros E; rewrite Hn; destruct (modelName st); [exfalso; apply E; reflexivity|reflexivity]|].
  split; [exact Hs|]. split; [exact Hp|]. split; [exact Hi|]. split; [exact Ho|].
  unfold handleSubmitStart, handleSubmit, handleSubmitAnswer. rewrite Ed.
  split; [reflexivity|].
  split; intros ? ->; destruct st; reflexivity.
Qed.


(** The name effect leaves the generated name of a non-empty description
    unless the name was edited by hand. *)
Lemma nameEffect_auto : forall st,
  nameManuallyEdited (nameEffect st) = false -> truthy_str (problemDescription (nameEffect st)) = true ->
  modelName (nameEffect st) = generatedName (problemDescription (nameEffect st)).
Proof.
  intros st. unfold nameEffect. destruct (nameManuallyEdited st) eqn:Em; cbn [negb andb].
  - intros H. congruence.
  - destruct (truthy_str (problemDescription st)) eqn:Et; [reflexivity|].
    intros _ H. congruence.
Qed.

Lemma rtrim_not_ends_ws : forall s, ends_with_ws (rtrim s) = false.
Proof.
  induction s as [|c r IH]; simpl; [reflexivity|].
  destruct (rtrim r) as [|c' r'].
  - destruct (js_ws c) eqn:Hc; simpl; [reflexivity|exact Hc].
  - exact IH.
Qed.

Lemma trim_nonblank : forall s, is_blank s = false ->
  exists c r, trim s = String c r /\ js_ws c = false /\ ends_with_ws (String c r) = false.
Proof.
  intros s Hb. pose proof (trim_truthy s) as T. rewrite Hb in T.
  assert (Hl : forall s, is_blank s = false -> exists c r, ltrim s = String c r /\ js_ws c = false).
  { induction s0 as [|c r IH]; simpl; [discriminate|].
    intros H. destruct (js_ws c) eqn:Hc; simpl in H; [apply IH, H|]. exists c, r. auto. }
  destruct (Hl s Hb) as (c & r & El & Hc).
  pose proof (rtrim_not_ends_ws (ltrim s)) as Hend.
  unfold trim in *. rewrite El in *. simpl in *.
  destruct (rtrim r) as [|c' r'] eqn:Er; [rewrite Hc in *|]; exists c; eexists; split;
    try reflexivity; auto.
Qed.

Lemma split_ws_aux_not_nil : forall s b, split_ws_aux s b <> [].
Proof.
  induction s as [|c r IH]; intros b; simpl; [discriminate|].
  destruct (js_ws c); [destruct b; [apply IH|discriminate]|].
  destruct (split_ws_aux r false); discriminate.
Qed.

Lemma split_ws_aux_no_ws : forall s b w, In w (split_ws_aux s b) ->
  forallb (fun c => negb (js_ws c)) (list_ascii_of_string w) = true.
Proof.
  induction s as [|c r IH]; intros b w Hin; simpl in Hin.
  - destruct Hin as [<-|[]]; reflexivity.
  - destruct (js_ws c) eqn:Hc.
    + destruct b; [exact (IH true w Hin)|].
      destruct Hin as [<-|Hin]; [reflexivity|exact (IH true w Hin)].
    + destruct (split_ws_aux r false) as [|w0 ws] eqn:E.
      * destruct Hin as [<-|[]]. simpl. rewrite Hc. reflexivity.
      * destruct Hin as [<-|Hin].
        -- simpl. rewrite Hc. apply (IH false w0). rewrite E. left; reflexivity.
        -- apply (IH false w). rewrite E. right; exact Hin.
Qed.

Lemma split_ws_aux_pieces : forall s b, s <> EmptyString -> ends_with_ws s = false ->
  (forall w, In w (tl (split_ws_aux s b)) -> w <> EmptyString) /\
  (b = true -> hd EmptyString (split_ws_aux s b) <> EmptyString).
Proof.
  induction s as [|c r IH]; intros b Hne Hend; [congruence|].
  assert (Hall : forall l, (forall w, In w (tl l) -> w <> EmptyString) ->
                   hd EmptyString l <> EmptyString -> forall w, In w l -> w <> EmptyString).
  { intros [|w0 l] H1 H2 w Hw; [destruct Hw|]. destruct Hw as [<-|Hw]; [exact H2|exact (H1 w Hw)]. }
  destruct r as [|c' r'].
  - simpl in Hend. simpl. rewrite Hend. split; [intros w []|intros _; discriminate].
  - assert (Hr : String c' r' <> EmptyString) by discriminate.
    assert (Hend' : ends_with_ws (String c' r') = false) by exact Hend.
    remember (String c' r') as r0 eqn:Er0. clear Er0 Hend Hne. cbn [split_ws_aux].
    destruct (js_ws c).
    + destruct (IH true Hr Hend') as [H1 H2]. destruct b.
      * split; assumption.
      * split; [|discriminate]. cbn [tl]. apply Hall; [exact H1|exact (H2 eq_refl)].
    + destruct (IH false Hr Hend') as [H1 _].
      destruct (split_ws_aux r0 false) as [|w0 ws] eqn:E;
        [exfalso; exact (split_ws_aux_not_nil _ _ E)|].
      split; [exact H1|intros _; discriminate].
Qed.

(** The pieces of a trimmed non-blank text are non-empty and contain no
    whitespace. *)
Lemma words_of_nonblank : forall d, is_blank d = false ->
  split_ws (trim d) <> [] /\
  forall w, In w (split_ws (trim d)) ->
    w <> EmptyString /\ forallb (fun c => negb (js_ws c)) (list_ascii_of_string w) = true.
Proof.
  intros d Hb. destruct (trim_nonblank d Hb) as (c & r & Et & Hc & Hend).
  unfold split_ws. rewrite Et. split; [apply split_ws_aux_not_nil|].
  intros w Hw. split; [|exact (split_ws_aux_no_ws _ _ w Hw)].
  destruct (split_ws_aux_pieces (String c r) false ltac:(discriminate) Hend) as [H1 _].
  revert Hw H1. cbn [split_ws_aux]. rewrite Hc.
  destruct (split_ws_aux r false) as [|w0 ws]; simpl.
  - intros [<-|[]] _. discriminate.
  - intros [<-|Hw] H1; [discriminate|exact (H1 w Hw)].
Qed.

Lemma js_upper_units_shape : forall c, js_ws c = false ->
  js_upper_units c <> [] /\ forallb (fun u => negb (js_ws_unit u)) (js_upper_units c) = true.
Proof.
  intros [[] [] [] [] [] [] [] []] H; vm_compute in H; try discriminate;
    split; vm_compute; first [discriminate | reflexivity].
Qed.

Lemma js_lower_unit_not_ws : forall c, js_ws c = false -> js_ws_unit (code (js_lower_char c)) = false.
Proof.
  intros [[] [] [] [] [] [] [] []] H; vm_compute in H; try discriminate; vm_compute; reflexivity.
Qed.

Lemma capitalize_shape : forall w, w <> EmptyString ->
  forallb (fun c => negb (js_ws c)) (list_ascii_of_string w) = true ->
  capitalize w <> [] /\ forallb (fun u => negb (js_ws_unit u)) (capitalize w) = true.
Proof.
  intros [|c r] Hne Hw; [congruence|]. simpl in Hw. apply andb_true_iff in Hw as [Hc Hr].
  apply negb_true_iff in Hc. destruct (js_upper_units_shape c Hc) as [N U].
  unfold capitalize. split.
  - destruct (js_upper_units c); [congruence|discriminate].
  - rewrite forallb_app, U. simpl. clear -Hr. induction r as [|c' r' IH]; [reflexivity|].
    simpl in *. apply andb_true_iff in Hr as [Hc' Hr']. apply negb_true_iff in Hc'.
    rewrite (js_lower_unit_not_ws c' Hc'). simpl. exact (IH Hr').
Qed.

(** X10: the generated model name of a description with some non-blank
    character is between one and four non-empty words, without whitespace,
    joined by single spaces; a whitespace-only description gives the empty
    name. *)
Theorem generatedName_words : forall d,
  (is_blank d = true -> generatedName d = []) /\
  (is_blank d = false ->
   exists ws, generatedName d = join_space ws /\ (1 <= List.length ws <= 4)%nat /\
     forall w, In w ws -> w <> [] /\ forallb (fun u => negb (js_ws_unit u)) w = true).
Proof.
  intros d. split.
  - intros Hb. unfold generatedName. pose proof (trim_truthy d) as T. rewrite Hb in T.
    destruct (trim d); [reflexivity|discriminate].
  - intros Hb. destruct (words_of_nonblank d Hb) as [Hne Hw].
    exists (map capitalize (firstn 4 (split_ws (trim d)))). split; [reflexivity|]. split.
    + rewrite length_map, length_firstn. destruct (split_ws (trim d)) as [|w0 ws]; [congruence|]. cbn [List.length]. destruct (Nat.min_spec 4 (S (List.length ws))) as [[Hm ->]|[Hm ->]]; lia.
    + intros w Hin. apply in_map_iff in Hin as (x & <- & Hx).
      assert (Hx' : In x (split_ws (trim d))).
      { rewrite <- (firstn_skipn 4 (split_ws (trim d))). apply in_or_app. left. exact Hx. }
      destruct (Hw x Hx') as [N F]. apply capitalize_shape; assumption.
Qed.

(** ** What each handler may change *)

Lemma nameEffect_shape : forall st,
  nameEffect st = st \/
  (nameManuallyEdited st = false /\ nameEffect st = setModelName st (generatedName (problemDescription st))).
Proof.
  intros st. unfold nameEffect. destruct (nameManuallyEdited st); [left; reflexivity|].
  destruct (truthy_str (problemDescription st)); [right; auto|left; reflexivity].
Qed.

Lemma step1_shape : forall st,
  handleStep1Continue st = st \/ handleStep1Continue st = setStep st Step2.
Proof.
  intros st. unfold handleStep1Continue. destruct (truthy_str _); auto.
Qed.

Lemma step2_shape : forall st,
  handleStep2Continue st = st \/
  exists a b, handleStep2Continue st = setStep (setOutputSchemaString (setInputSchemaString st a) b) Step3.
Proof.
  intros st. destruct (step2_continue_cases st) as [H1 H2].
  destruct (step2Disabled st); [left; auto|right; eexists _, _; exact (H2 eq_refl)].
Qed.

Lemma input_change_shape : forall v st st',
  handleInputSchemaChange v st = Ok st' -> exists a e, st' = setInputSchemaError (setInputSchemaString st a) e.
Proof.
  intros v st st' H. unfold handleInputSchemaChange in H.
  destruct (validateSchema _); simpl in H; [|discriminate].
  injection H as <-. eexists _, _. reflexivity.
Qed.

Lemma output_change_shape : forall v st st',
  handleOutputSchemaChange v st = Ok st' -> exists a e, st' = setOutputSchemaError (setOutputSchemaString st a) e.
Proof.
  intros v st st' H. unfold handleOutputSchemaChange in H.
  destruct (validateSchema _); simpl in H; [|discriminate].
  injection H as <-. eexists _, _. reflexivity.
Qed.

Lemma change_ok : forall v st,
  (exists st', handleInputSchemaChange v st = Ok st') /\
  (exists st', handleOutputSchemaChange v st = Ok st').
Proof.
  intros v st. destruct (validate_total (match v with Some x => x | None => "" end)) as (r & E & _).
  unfold handleInputSchemaChange, handleOutputSchemaChange. rewrite E.
  split; eexists; reflexivity.
Qed.


Lemma snapshot_shape : forall s st,
  onModelSnapshot s st = (st, []) \/ onModelSnapshot s st = (st, [ConsoleError]) \/
  (step st = StepTraining /\ onModelSnapshot s st = (setStep st StepSuccess, [])).
Proof.
  intros s st. unfold onModelSnapshot.
  destruct (truthy_opt (modelId st)); [|left; reflexivity].
  destruct (step st) eqn:Es; cbn [Step_eqb andb]; try (left; reflexivity).
  destruct s as [x|]; [|left; reflexivity].
  destruct (String.eqb x "completed"); [right; right; auto|].
  destruct (String.eqb x "failed"); auto.
Qed.


Lemma start_shape : forall u st,
  handleStep3Start u st = (st, []) \/
  exists d, doc_ok d /\
    handleStep3Start u st = (setPendingSubmits st (S (pendingSubmits st)), [AddDoc d]).
Proof.
  intros u st. unfold handleStep3Start. destruct (negb _ && negb _); [|left; reflexivity].
  destruct u as [u|]; [|left; reflexivity].
  destruct (submitDocument_ok u st) as (d & Ed & _ & Hn & _ & Hs & _).
  right. exists d. split; [split; [rewrite Hn; destruct (modelName st); discriminate|exact Hs]|].
  unfold handleSubmitStart. rewrite Ed. reflexivity.
Qed.

Lemma submit_shape : forall u a st,
  handleStep3Continue u a st = (st, []) \/
  (exists d, doc_ok d /\ handleStep3Continue u a st = (st, [AddDoc d; ConsoleError])) \/
  (exists d id, doc_ok d /\
     handleStep3Continue u a st = (setStep (setModelId st (Some id)) StepTraining,
                                   [AddDoc d; StartTraining id])).
Proof.
  intros u a st. unfold handleStep3Continue.
  destruct (negb _ && negb _); [|left; reflexivity].
  destruct u as [u|]; [|left; reflexivity].
  destruct (submitDocument_ok u st) as (d & Ed & _ & Hn & _ & Hs & _).
  assert (Hd : doc_ok d) by (split; [rewrite Hn; destruct (modelName st); discriminate|exact Hs]).
  unfold handleSubmit, handleSubmitAnswer. rewrite Ed. destruct a as [id|e].
  - right; right. exists d, id. split; [exact Hd|]. destruct st; reflexivity.
  - right; left. exists d. split; [exact Hd|]. destruct st; reflexivity.
Qed.

Lemma answer_shape : forall a st,
  handleSubmitAnswer a st = (setPendingSubmits st (pred (pendingSubmits st)), [ConsoleError]) \/
  exists id, handleSubmitAnswer a st =
    (setStep (setModelId (setPendingSubmits st (pred (pendingSubmits st))) (Some id)) StepTraining,
     [StartTraining id]).
Proof.
  intros [id|e] st; unfold handleSubmitAnswer; [right; exists id|left]; reflexivity.
Qed.

Lemma copy_shape : forall t c st,
  match handleCopySchema t c st with Some r => r | None => (st, [UncaughtError]) end =
    (st, [UncaughtError]) \/
  exists text, match handleCopySchema t c st with Some r => r | None => (st, [UncaughtError]) end =
    (setCopiedSchema st (Some t), [ClipboardWrite text]).
Proof.
  intros t [] st; unfold handleCopySchema; [right; eexists|left]; reflexivity.
Qed.

(** Splits [dispatch ev st = Ok (st', effs)] into one case per handler
    outcome, with [st'] and [effs] replaced by what the handler returns. *)
Ltac open_handler H :=
  repeat match type of H with
  | context [onProblemDescriptionChange ?v ?s] =>
      unfold onProblemDescriptionChange in H;
      let E := fresh "E" in let Hm := fresh "Hm" in
      destruct (nameEffect_shape (setProblemDescription s v)) as [E|[Hm E]]; rewrite E in H
  | context [onModelNameChange ?v ?s] =>
      unfold onModelNameChange in H;
      let E := fresh "E" in let Hm := fresh "Hm" in
      destruct (nameEffect_shape (setNameManuallyEdited (setModelName s v) true)) as [E|[Hm E]];
      rewrite E in H
  | context [if step1Disabled ?s then _ else _] => destruct (step1Disabled s); cbv beta iota in H
  | context [handleStep1Continue ?s] =>
      let E := fresh "E" in destruct (step1_shape s) as [E|E]; rewrite E in H
  | context [if step2Disabled ?s then _ else _] => destruct (step2Disabled s); cbv beta iota in H
  | context [handleStep2Continue ?s] =>
      let E := fresh "E" in destruct (step2_shape s) as [E|(? & ? & E)]; rewrite E in H
  | context [handleInputSchemaChange ?v ?s] =>
      let E := fresh "E" in
      destruct (handleInputSchemaChange v s) as [?s1|?ex] eqn:E; cbn [bind] in H;
      [destruct (input_change_shape _ _ _ E) as (? & ? & ->)|discriminate H]
  | context [handleOutputSchemaChange ?v ?s] =>
      let E := fresh "E" in
      destruct (handleOutputSchemaChange v s) as [?s1|?ex] eqn:E; cbn [bind] in H;
      [destruct (output_change_shape _ _ _ E) as (? & ? & ->)|discriminate H]
  | context [if step3Disabled ?s then _ else _] => destruct (step3Disabled s); cbv beta iota in H
  | context [handleStep3Continue ?u ?a ?s] =>
      let E := fresh "E" in
      destruct (submit_shape u a s) as [E|[(?d & ?Hdoc & E)|(?d & ?id & ?Hdoc & E)]]; rewrite E in H
  | context [handleStep3Start ?u ?s] =>
      let E := fresh "E" in destruct (start_shape u s) as [E|(?d & ?Hdoc & E)]; rewrite E in H
  | context [if Nat.eqb (pendingSubmits ?s) 0 then _ else _] =>
      let Ep := fresh "Ep" in destruct (Nat.eqb (pendingSubmits s) 0) eqn:Ep; cbv beta iota in H
  | context [handleSubmitAnswer ?a ?s] =>
      let E := fresh "E" in destruct (answer_shape a s) as [E|(?id & E)]; rewrite E in H
  | context [handleCopySchema ?t ?c ?s] =>
      let E := fresh "E" in destruct (copy_shape t c s) as [E|(?txt & E)]; rewrite E in H
  | context [onModelSnapshot ?x ?s] =>
      let E := fresh "E" in let Et := fresh "Et" in
      destruct (snapshot_shape x s) as [E|[E|[Et E]]]; rewrite E in H
  end;
  injection H as <- <-.

Ltac open_dispatch H :=
  unfold dispatch in H;
  match type of H with
  | context [match ?ev with _ => _ end] => is_var ev; destruct ev
  end;
  match type of H with
  | context [step ?st] => let Es := fresh "Es" in destruct (step st) eqn:Es
  | _ => idtac
  end;
  cbv beta iota in H; open_handler H.

Ltac wiz_simpl :=
  cbn [step modelId problemDescription modelName nameManuallyEdited inputSchemaString
       outputSchemaString inputSchemaError outputSchemaError dataSourceType csvFile s3BucketUrl
       s3Region s3AccessKeyId s3SecretAccessKey copiedSchema pendingSubmits setStep setModelId
       setProblemDescription setModelName setNameManuallyEdited setInputSchemaString
       setOutputSchemaString setInputSchemaError setOutputSchemaError setCopiedSchema
       setPendingSubmits setDataSourceType setCsvFile setS3BucketUrl setS3Region setS3AccessKeyId
       setS3SecretAccessKey onBackToProblem onBackToDataSource is_name_event
       is_input_schema_event is_output_schema_event editing_step] in *.

Lemma dispatch_final : forall ev st st' effs, dispatch ev st = Ok (st', effs) ->
  (modelId st = None <-> editing_step (step st) = true) ->
  (modelId st' = None <-> editing_step (step st') = true) /\
  (editing_step (step st) = false -> editing_step (step st') = false).
Proof.
  intros ev st st' effs H Inv. open_dispatch H; wiz_simpl; rewrite ?Es in *; cbn [editing_step] in *;
    try discriminate;
    (split; [first [exact Inv | split; intros; discriminate
                   | rewrite Et in Inv; cbn [editing_step] in Inv; exact Inv]
            |intros Hx; first [reflexivity | assumption | discriminate Hx]]).
Qed.

Lemma dispatch_name : forall ev st st' effs, dispatch ev st = Ok (st', effs) ->
  nameManuallyEdited st = true ->
  nameManuallyEdited st' = true /\ (is_name_event ev = false -> modelName st' = modelName st).
Proof.
  intros ev st st' effs H Hm0. open_dispatch H; wiz_simpl; try (exfalso; congruence);
    split; first [assumption | reflexivity | intros Hx; first [reflexivity | discriminate Hx]].
Qed.

Ltac no_adddoc Hd :=
  simpl in Hd;
  repeat match type of Hd with
         | _ \/ _ => destruct Hd as [Hd|Hd]
         | False => destruct Hd
         | AddDoc _ = AddDoc _ => injection Hd as <-; assumption
         | _ = _ => discriminate Hd
         end.

Lemma dispatch_docs : forall ev st st' effs, dispatch ev st = Ok (st', effs) ->
  forall d, In (AddDoc d) effs -> doc_ok d.
Proof.
  intros ev st st' effs H d Hd. open_dispatch H; no_adddoc Hd.
Qed.

Lemma dispatch_auto : forall ev st st' effs, dispatch ev st = Ok (st', effs) ->
  (nameManuallyEdited st = false -> truthy_str (problemDescription st) = true ->
   modelName st = generatedName (problemDescription st)) ->
  (nameManuallyEdited st' = false -> truthy_str (problemDescription st') = true ->
   modelName st' = generatedName (problemDescription st')).
Proof.
  intros ev st st' effs H Inv. unfold dispatch in H. destruct ev; destruct (step st) eqn:Es;
    cbv beta iota in H;
    first [injection H as <- <-; unfold onProblemDescriptionChange, onModelNameChange;
           apply nameEffect_auto
          |open_handler H; wiz_simpl; exact Inv].
Qed.

Lemma dispatch_errors : forall ev st st' effs, dispatch ev st = Ok (st', effs) ->
  (is_input_schema_event ev = false -> inputSchemaError st' = inputSchemaError st) /\
  (is_output_schema_event ev = false -> outputSchemaError st' = outputSchemaError st).
Proof.
  intros ev st st' effs H. open_dispatch H; wiz_simpl;
    split; intros Hx; first [reflexivity | discriminate Hx].
Qed.

Lemma run_cons : forall ev evs st st' effs, run (ev :: evs) st = Ok (st', effs) ->
  exists s1 e1 e2, dispatch ev st = Ok (s1, e1) /\ run evs s1 = Ok (st', e2) /\
                   effs = (e1 ++ e2)%list.
Proof.
  intros ev evs st st' effs H. cbn [run] in H.
  destruct (dispatch ev st) as [[s1 e1]|ex]; cbn [bind fst snd] in H; [|discriminate].
  destruct (run evs s1) as [[s2 e2]|ex] eqn:E2; cbn [bind fst snd] in H; [|discriminate].
  injection H as <- <-. exists s1, e1, e2. repeat split. exact E2.
Qed.

Lemma run_final : forall evs st st' effs, run evs st = Ok (st', effs) ->
  (modelId st = None <-> editing_step (step st) = true) ->
  (modelId st' = None <-> editing_step (step st') = true) /\
  (editing_step (step st) = false -> editing_step (step st') = false).
Proof.
  induction evs as [|ev evs IH]; intros st st' effs H Inv.
  - cbn [run] in H. injection H as <- <-. auto.
  - destruct (run_cons ev evs st st' effs H) as (s1 & e1 & e2 & E1 & E2 & _).
    destruct (dispatch_final ev st s1 e1 E1 Inv) as [Inv1 F1].
    destruct (IH s1 st' e2 E2 Inv1) as [Inv2 F2]. auto.
Qed.

Lemma run_name : forall evs st st' effs, run evs st = Ok (st', effs) ->
  nameManuallyEdited st = true ->
  nameManuallyEdited st' = true /\
  (forallb (fun ev => negb (is_name_event ev)) evs = true -> modelName st' = modelName st).
Proof.
  induction evs as [|ev evs IH]; intros st st' effs H Hm.
  - cbn [run] in H. injection H as <- <-. auto.
  - destruct (run_cons ev evs st st' effs H) as (s1 & e1 & e2 & E1 & E2 & _).
    destruct (dispatch_name ev st s1 e1 E1 Hm) as [Hm1 N1].
    destruct (IH s1 st' e2 E2 Hm1) as [Hm2 N2].
    split; [exact Hm2|]. intros Hf. cbn [forallb] in Hf. apply andb_true_iff in Hf as [Hf1 Hf2].
    apply negb_true_iff in Hf1. rewrite (N2 Hf2). exact (N1 Hf1).
Qed.

Lemma run_docs : forall evs st st' effs, run evs st = Ok (st', effs) ->
  forall d, In (AddDoc d) effs -> doc_ok d.
Proof.
  induction evs as [|ev evs IH]; intros st st' effs H d Hd.
  - cbn [run] in H. injection H as <- <-. destruct Hd.
  - destruct (run_cons ev evs st st' effs H) as (s1 & e1 & e2 & E1 & E2 & ->).
    apply in_app_or in Hd as [Hd|Hd].
    + exact (dispatch_docs ev st s1 e1 E1 d Hd).
    + exact (IH s1 st' e2 E2 d Hd).
Qed.

Lemma run_auto : forall evs st st' effs, run evs st = Ok (st', effs) ->
  (nameManuallyEdited st = false -> truthy_str (problemDescription st) = true ->
   modelName st = generatedName (problemDescription st)) ->
  (nameManuallyEdited st' = false -> truthy_str (problemDescription st') = true ->
   modelName st' = generatedName (problemDescription st')).
Proof.
  induction evs as [|ev evs IH]; intros st st' effs H Inv.
  - cbn [run] in H. injection H as <- <-. exact Inv.
  - destruct (run_cons ev evs st st' effs H) as (s1 & e1 & e2 & E1 & E2 & _).
    exact (IH s1 st' e2 E2 (dispatch_auto ev st s1 e1 E1 Inv)).
Qed.

Lemma run_errors : forall evs st st' effs, run evs st = Ok (st', effs) ->
  (forallb (fun ev => negb (is_input_schema_event ev)) evs = true ->
   inputSchemaError st' = inputSchemaError st) /\
  (forallb (fun ev => negb (is_output_schema_event ev)) evs = true ->
   outputSchemaError st' = outputSchemaError st).
Proof.
  induction evs as [|ev evs IH]; intros st st' effs H.
  - cbn [run] in H. injection H as <- <-. auto.
  - destruct (run_cons ev evs st st' effs H) as (s1 & e1 & e2 & E1 & E2 & _).
    destruct (dispatch_errors ev st s1 e1 E1) as [I1 O1].
    destruct (IH s1 st' e2 E2) as [I2 O2].
    split; intros Hf; cbn [forallb] in Hf; apply andb_true_iff in Hf as [Hf1 Hf2];
      apply negb_true_iff in Hf1; [rewrite (I2 Hf2), (I1 Hf1)|rewrite (O2 Hf2), (O1 Hf1)];
      reflexivity.
Qed.

(** A click on an enabled Create button with a signed-in user. *)
Lemma create_click : forall st u d, step st = Step3 -> step3Disabled st = false ->
  submitDocument u st = Ok d ->
  dispatch (EvCreateClick (Some u)) st = Ok (setPendingSubmits st (S (pendingSubmits st)), [AddDoc d]).
Proof.
  intros st u d Hs Hd Ed. unfold dispatch. rewrite Hs, Hd.
  unfold step3Disabled in Hd. apply orb_false_iff in Hd as [H1 H2].
  unfold handleStep3Start. rewrite H1, H2. cbn [negb andb].
  unfold handleSubmitStart. rewrite Ed. reflexivity.
Qed.

Lemma answer_ok : forall st id, pendingSubmits st <> 0%nat ->
  dispatch (EvAddDocAnswer (Ok id)) st =
    Ok (setStep (setModelId (setPendingSubmits st (pred (pendingSubmits st))) (Some id)) StepTraining,
        [StartTraining id]).
Proof.
  intros st id H. apply Nat.eqb_neq in H. unfold dispatch. rewrite H. reflexivity.
Qed.

(** X9: from the start of the wizard, as long as the name was not typed
    by hand and the description is not empty, the model name is the name
    generated from the current description, whatever else happened. *)
Theorem generated_name_follows_description : forall evs st' effs,
  run evs initialWizard = Ok (st', effs) ->
  nameManuallyEdited st' = false -> truthy_str (problemDescription st') = true ->
  modelName st' = generatedName (problemDescription st').
Proof.
  intros evs st' effs H. apply (run_auto evs initialWizard st' effs H).
  intros _ Ht. discriminate Ht.
Qed.

Lemma generated_name_follows_description_witness :
  exists st' effs, run demo_events_async initialWizard = Ok (st', effs) /\
  nameManuallyEdited st' = false /\ truthy_str (problemDescription st') = true /\
  modelName st' = generatedName (problemDescription st').
Proof.
  eexists; eexists. split; [vm_compute; reflexivity|].
  split; [vm_compute; reflexivity|]. split; [vm_compute; reflexivity|].
  eapply (generated_name_follows_description demo_events_async); vm_compute; reflexivity.
Defined.

(** X12: from the start of the wizard, it has a model id exactly when it
    shows the training or success screen; once it shows one of them, no
    further events bring back steps 1 to 3 or clear the model id. *)
Theorem submission_is_final : forall evs st' effs,
  run evs initialWizard = Ok (st', effs) ->
  (modelId st' = None <-> editing_step (step st') = true) /\
  (editing_step (step st') = false ->
   forall evs2 st'' effs2, run evs2 st' = Ok (st'', effs2) ->
     editing_step (step st'') = false /\ modelId st'' <> None).
Proof.
  intros evs st' effs H.
  assert (Inv0 : modelId initialWizard = None <-> editing_step (step initialWizard) = true).
  { split; reflexivity. }
  destruct (run_final evs initialWizard st' effs H Inv0) as [Inv _].
  split; [exact Inv|]. intros Hx evs2 st'' effs2 H2.
  destruct (run_final evs2 st' st'' effs2 H2 Inv) as [Inv2 F].
  specialize (F Hx). split; [exact F|]. intros Hn. apply Inv2 in Hn. congruence.
Qed.

Lemma submission_is_final_witness :
  exists st' effs, run demo_events_async initialWizard = Ok (st', effs) /\ step st' = StepSuccess /\
  ((modelId st' = None <-> editing_step (step st') = true) /\
   (editing_step (step st') = false ->
    forall evs2 st'' effs2, run evs2 st' = Ok (st'', effs2) ->
      editing_step (step st'') = false /\ modelId st'' <> None)).
Proof.
  eexists; eexists. split; [vm_compute; reflexivity|]. split; [vm_compute; reflexivity|].
  eapply (submission_is_final demo_events_async). vm_compute. reflexivity.
Defined.

(** X13: once the model name was typed by hand, it stays marked as edited
    whatever happens next, and only typing in the name field changes it:
    description edits no longer rename the model. *)
Theorem manual_name_is_kept : forall evs st st' effs,
  nameManuallyEdited st = true -> run evs st = Ok (st', effs) ->
  nameManuallyEdited st' = true /\
  (forallb (fun ev => negb (is_name_event ev)) evs = true -> modelName st' = modelName st).
Proof.
  intros evs st st' effs Hm H. exact (run_name evs st st' effs H Hm).
Qed.

Lemma manual_name_is_kept_witness :
  exists st' effs, nameManuallyEdited demoNamedWizard = true /\
  run demo_events demoNamedWizard = Ok (st', effs) /\
  nameManuallyEdited st' = true /\
  (forallb (fun ev => negb (is_name_event ev)) demo_events = true ->
   modelName st' = modelName demoNamedWizard).
Proof.
  eexists; eexists. split; [reflexivity|]. split; [vm_compute; reflexivity|].
  eapply (manual_name_is_kept demo_events demoNamedWizard); [reflexivity|vm_compute; reflexivity].
Defined.

(** X14: in any run, every document the wizard sends to Firestore has a
    non-empty name and the status "training". *)
Theorem documents_always_named : forall evs st st' effs d,
  run evs st = Ok (st', effs) -> In (AddDoc d) effs -> name d <> [] /\ status d = "training".
Proof.
  intros evs st st' effs d H Hd. exact (run_docs evs st st' effs H d Hd).
Qed.

Lemma documents_always_named_witness :
  exists st' effs d, run demo_events initialWizard = Ok (st', effs) /\ In (AddDoc d) effs /\
  name d <> [] /\ status d = "training".
Proof.
  eexists; eexists; eexists. split; [vm_compute; reflexivity|]. split; [left; reflexivity|].
  eapply (documents_always_named demo_events initialWizard); [vm_compute; reflexivity|left; reflexivity].
Defined.

Ltac wiz_cbn :=
  cbn [step modelId problemDescription modelName nameManuallyEdited inputSchemaString
       outputSchemaString inputSchemaError outputSchemaError dataSourceType csvFile s3BucketUrl
       s3Region s3AccessKeyId s3SecretAccessKey copiedSchema pendingSubmits setStep setModelId
       setProblemDescription setModelName setNameManuallyEdited setInputSchemaString
       setOutputSchemaString setInputSchemaError setOutputSchemaError setCopiedSchema
       setPendingSubmits setDataSourceType setCsvFile setS3BucketUrl setS3Region
       setS3AccessKeyId setS3SecretAccessKey onBackToProblem onBackToDataSource
       run bind fst snd app pred] in *.

(** X15: from step 2 with a usable data source and no schema error, Continue
    and then Create send one document whose input and output schemas are the
    objects generateSchemas produced for the description, move to the
    training step with the new id and start training on it. *)
Theorem generated_schemas_reach_firestore : forall st u id,
  step st = Step2 -> step2Disabled st = false ->
  truthy_opt (inputSchemaError st) = false -> truthy_opt (outputSchemaError st) = false ->
  exists oi oo d st',
    input (generateSchemas (problemDescription st)) = JObj oi /\
    output (generateSchemas (problemDescription st)) = JObj oo /\
    run [EvStep2Continue; EvStep3Continue (Some u) (Ok id)] st = Ok (st', [AddDoc d; StartTraining id]) /\
    step st' = StepTraining /\ modelId st' = Some id /\
    inputSchema d = oi /\ outputSchema d = oo /\ userId d = uid u /\ status d = "training".
Proof.
  intros st u id Hs H2 Hi Ho.
  destruct (generated_texts_validate (problemDescription st)) as (oi & oo & Ei & Eo & Vi & Vo & _).
  destruct (step2_continue_cases st) as [_ Hc]. specialize (Hc H2).
  exists oi, oo. rewrite <- Ei, <- Eo.
  cbn [run]. unfold dispatch at 1. rewrite Hs, H2. wiz_cbn. rewrite Hc.
  unfold dispatch, step3Disabled, handleStep3Continue, handleSubmit, submitDocument,
    handleSubmitAnswer. wiz_cbn.
  rewrite Hi, Ho. cbn [negb andb orb]. rewrite Ei, Eo, Vi. wiz_cbn. rewrite Vo. wiz_cbn.
  eexists; eexists. split; [reflexivity|]. split; [reflexivity|].
  split; [reflexivity|]. repeat split.
Qed.

Lemma generated_schemas_reach_firestore_witness :
  step demoStep2 = Step2 /\ step2Disabled demoStep2 = false /\
  truthy_opt (inputSchemaError demoStep2) = false /\ truthy_opt (outputSchemaError demoStep2) = false /\
  exists oi oo d st',
    input (generateSchemas (problemDescription demoStep2)) = JObj oi /\
    output (generateSchemas (problemDescription demoStep2)) = JObj oo /\
    run [EvStep2Continue; EvStep3Continue (Some demoUser) (Ok "model-1")] demoStep2 =
      Ok (st', [AddDoc d; StartTraining "model-1"]) /\
    step st' = StepTraining /\ modelId st' = Some "model-1" /\
    inputSchema d = oi /\ outputSchema d = oo /\ userId d = uid demoUser /\ status d = "training".
Proof.
  split; [reflexivity|]. split; [reflexivity|]. split; [reflexivity|]. split; [reflexivity|].
  apply generated_schemas_reach_firestore; reflexivity.
Defined.

(** X16: the error shown for a schema editor is only set by edits of that
    editor: over any run of events without an edit of the input (output)
    editor, the input (output) error stays what it was. *)
Theorem schema_error_changes_only_by_its_editor : forall evs st st' effs,
  run evs st = Ok (st', effs) ->
  (forallb (fun ev => negb (is_input_schema_event ev)) evs = true ->
   inputSchemaError st' = inputSchemaError st) /\
  (forallb (fun ev => negb (is_output_schema_event ev)) evs = true ->
   outputSchemaError st' = outputSchemaError st).
Proof.
  intros evs st st' effs H. exact (run_errors evs st st' effs H).
Qed.

Lemma schema_error_changes_only_by_its_editor_witness :
  exists st' effs, run demo_events_async demoStep3Broken = Ok (st', effs) /\
  (forallb (fun ev => negb (is_input_schema_event ev)) demo_events_async = true ->
   inputSchemaError st' = inputSchemaError demoStep3Broken) /\
  (forallb (fun ev => negb (is_output_schema_event ev)) demo_events_async = true ->
   outputSchemaError st' = outputSchemaError demoStep3Broken).
Proof.
  eexists; eexists. split; [vm_compute; reflexivity|].
  eapply (schema_error_changes_only_by_its_editor demo_events_async demoStep3Broken).
  vm_compute. reflexivity.
Defined.

(** X17: if the input editor shows an error and the user goes back to
    step 2 and continues, the editor gets the valid generated schema text,
    yet the old error stays and Create does nothing. *)
Theorem stale_error_blocks_create : forall st e u a,
  step st = Step3 -> inputSchemaError st = Some e -> truthy_str e = true ->
  step2Disabled st = false ->
  exists oi st',
    run [EvBackToDataSource; EvStep2Continue; EvStep3Continue u a] st = Ok (st', []) /\
    step st' = Step3 /\ inputSchemaError st' = Some e /\ step3Disabled st' = true /\
    input (generateSchemas (problemDescription st)) = JObj oi /\
    inputSchemaString st' = formatSchema (JObj oi) /\
    validateSchema (inputSchemaString st') = Ok {| valid := true; error := None; parsed := Some oi |}.
Proof.
  intros st e u a Hs He Ht H2.
  destruct (generated_texts_validate (problemDescription st)) as (oi & oo & Ei & Eo & Vi & Vo & _).
  assert (H2' : step2Disabled (onBackToDataSource st) = false) by exact H2.
  destruct (step2_continue_cases (onBackToDataSource st)) as [_ Hc]. specialize (Hc H2').
  exists oi.
  cbn [run]. unfold dispatch at 1. rewrite Hs. wiz_cbn.
  unfold dispatch at 1. wiz_cbn. rewrite H2'. rewrite Hc. wiz_cbn.
  unfold dispatch, step3Disabled. wiz_cbn. rewrite He. cbn [truthy_opt]. rewrite Ht. cbn [orb].
  rewrite Ei. eexists. split; [reflexivity|].
  split; [reflexivity|]. split; [exact He|].
  split; [wiz_cbn; rewrite He; cbn [truthy_opt]; rewrite Ht; reflexivity|].
  split; [reflexivity|]. split; [reflexivity|]. exact Vi.
Qed.

Lemma stale_error_blocks_create_witness :
  step demoStep3Broken = Step3 /\ inputSchemaError demoStep3Broken = Some "Unexpected token in JSON" /\
  exists oi st',
    run [EvBackToDataSource; EvStep2Continue; EvStep3Continue (Some demoUser) (Ok "model-1")]
      demoStep3Broken = Ok (st', []) /\
    step st' = Step3 /\ inputSchemaError st' = Some "Unexpected token in JSON" /\ step3Disabled st' = true /\
    input (generateSchemas (problemDescription demoStep3Broken)) = JObj oi /\
    inputSchemaString st' = formatSchema (JObj oi) /\
    validateSchema (inputSchemaString st') = Ok {| valid := true; error := None; parsed := Some oi |}.
Proof.
  split; [reflexivity|]. split; [reflexivity|].
  apply stale_error_blocks_create; reflexivity.
Defined.

(** X18: Create stays enabled while addDoc is pending, so two clicks
    before the first answer send the same document twice; when both
    succeed, training starts on both ids and the wizard keeps the id
    answered last. *)
Theorem double_create_sends_twice : forall st u id1 id2,
  step st = Step3 -> step3Disabled st = false ->
  exists d st',
    run [EvCreateClick (Some u); EvCreateClick (Some u);
         EvAddDocAnswer (Ok id1); EvAddDocAnswer (Ok id2)] st =
      Ok (st', [AddDoc d; AddDoc d; StartTraining id1; StartTraining id2]) /\
    userId d = uid u /\ status d = "training" /\
    step st' = StepTraining /\ modelId st' = Some id2 /\ pendingSubmits st' = pendingSubmits st.
Proof.
  intros st u id1 id2 Hs Hd.
  destruct (submitDocument_ok u st) as (d & Ed & Hu & _ & _ & Hst & _).
  pose (st1 := setPendingSubmits st (S (pendingSubmits st))).
  pose (st2 := setPendingSubmits st1 (S (pendingSubmits st1))).
  pose (st3 := setStep (setModelId (setPendingSubmits st2 (pred (pendingSubmits st2))) (Some id1))
                 StepTraining).
  assert (E1 := create_click st u d Hs Hd Ed).
  assert (E2 : dispatch (EvCreateClick (Some u)) st1 = Ok (st2, [AddDoc d]))
    by (apply create_click; [exact Hs | exact Hd | exact Ed]).
  assert (E3 : dispatch (EvAddDocAnswer (Ok id1)) st2 = Ok (st3, [StartTraining id1]))
    by (apply answer_ok; discriminate).
  assert (E4 : dispatch (EvAddDocAnswer (Ok id2)) st3 =
    Ok (setStep (setModelId (setPendingSubmits st3 (pred (pendingSubmits st3))) (Some id2))
          StepTraining, [StartTraining id2]))
    by (apply answer_ok; discriminate).
  exists d. cbn [run]. rewrite E1. cbn [bind fst snd]. fold st1. rewrite E2. cbn [bind fst snd].
  rewrite E3. cbn [bind fst snd]. rewrite E4. cbn [bind fst snd app].
  eexists. split; [reflexivity|]. split; [exact Hu|]. split; [exact Hst|].
  split; [reflexivity|]. split; [reflexivity|]. reflexivity.
Qed.

Lemma double_create_sends_twice_witness :
  step demoStep3 = Step3 /\ step3Disabled demoStep3 = false /\
  exists d st',
    run [EvCreateClick (Some demoUser); EvCreateClick (Some demoUser);
         EvAddDocAnswer (Ok "model-1"); EvAddDocAnswer (Ok "model-2")] demoStep3 =
      Ok (st', [AddDoc d; AddDoc d; StartTraining "model-1"; StartTraining "model-2"]) /\
    userId d = uid demoUser /\ status d = "training" /\
    step st' = StepTraining /\ modelId st' = Some "model-2" /\
    pendingSubmits st' = pendingSubmits demoStep3.
Proof.
  split; [reflexivity|]. split; [vm_compute; reflexivity|].
  apply double_create_sends_twice; [reflexivity | vm_compute; reflexivity].
Defined.

(** X19: the answer of addDoc is handled whatever the wizard shows by
    then: after Create, going back to step 2 and then to step 1 does not
    stop the submission, and its answer moves the wizard from step 1 to
    the training screen with the new id. *)
Theorem answer_ignores_current_step : forall st u id,
  step st = Step3 -> step3Disabled st = false ->
  exists d st',
    run [EvCreateClick (Some u); EvBackToDataSource; EvBackToProblem; EvAddDocAnswer (Ok id)] st =
      Ok (st', [AddDoc d; StartTraining id]) /\
    userId d = uid u /\ step st' = StepTraining /\ modelId st' = Some id.
Proof.
  intros st u id Hs Hd.
  destruct (submitDocument_ok u st) as (d & Ed & Hu & _).
  pose (st1 := setPendingSubmits st (S (pendingSubmits st))).
  pose (st2 := onBackToProblem (onBackToDataSource st1)).
  assert (E1 := create_click st u d Hs Hd Ed).
  assert (E2 : dispatch EvBackToDataSource st1 = Ok (onBackToDataSource st1, []))
    by (unfold dispatch; cbn [st1 step setPendingSubmits]; rewrite Hs; reflexivity).
  assert (E3 : dispatch EvBackToProblem (onBackToDataSource st1) = Ok (st2, [])) by reflexivity.
  assert (E4 : dispatch (EvAddDocAnswer (Ok id)) st2 =
    Ok (setStep (setModelId (setPendingSubmits st2 (pred (pendingSubmits st2))) (Some id))
          StepTraining, [StartTraining id]))
    by (apply answer_ok; discriminate).
  exists d. cbn [run]. rewrite E1. cbn [bind fst snd]. fold st1. rewrite E2. cbn [bind fst snd].
  rewrite E3. cbn [bind fst snd]. rewrite E4. cbn [bind fst snd app].
  eexists. split; [reflexivity|]. split; [exact Hu|]. split; reflexivity.
Qed.

Lemma answer_ignores_current_step_witness :
  step demoStep3 = Step3 /\ step3Disabled demoStep3 = false /\
  exists d st',
    run [EvCreateClick (Some demoUser); EvBackToDataSource; EvBackToProblem;
         EvAddDocAnswer (Ok "model-1")] demoStep3 =
      Ok (st', [AddDoc d; StartTraining "model-1"]) /\
    userId d = uid demoUser /\ step st' = StepTraining /\ modelId st' = Some "model-1".
Proof.
  split; [reflexivity|]. split; [vm_compute; reflexivity|].
  apply answer_ignores_current_step; [reflexivity | vm_compute; reflexivity].
Defined.
